(** * SMA crossover strategy: signal generation and order simulation

    A shallow embedding of [scripts/run_strategy.py]: the rolling-mean
    signal generator [compute_sma_signals], the timestamp helper
    [_make_dt] and the order simulator [generate_orders], followed by the
    properties the specification states about them.

    Modelling conventions.
    - Prices are exact rationals ([Q]); the rounding of binary floating
      point is not modelled.  A price column holds numbers only.
    - A pandas cell that may be missing is an [option]: [None] is NaN for
      a number and the empty string for a blank ledger field.
    - Python exceptions are values of [exn], carried by the [result]
      monad; [try ... except Exception] is a [match] on the result.
    - The time-zone database is not part of the repository: whether a
      wall-clock time can be localized in a named zone is a parameter,
      the class [TzDatabase]. *)

From Stdlib Require Import ZArith QArith Lia Ascii String.
From stdpp Require Import base option list strings sorting.

Local Open Scope Z_scope.

(** ** Exceptions and the error monad *)

Inductive exn : Type :=
  | IndexError
  | ValueError
  | TypeError
  | TzError.

Inductive result (A : Type) : Type :=
  | Ok (a : A)
  | Raise (e : exn).

Arguments Ok {A} a.
Arguments Raise {A} e.

#[global] Instance result_bind : MBind result := fun A B k m =>
  match m with
  | Ok a => k a
  | Raise e => Raise e
  end.

#[global] Instance result_ret : MRet result := fun A a => Ok a.

(** A [for] loop over [xs] whose body may raise. *)
Fixpoint foldM {S A : Type} (f : S -> A -> result S) (xs : list A) (s : S)
  : result S :=
  match xs with
  | [] => Ok s
  | x :: xs' => s' ← f s x; foldM f xs' s'
  end.

(** ** Timestamps *)

(** A [pd.Timestamp]: wall-clock fields and an optional zone name. *)
Record Timestamp : Type := mkTimestamp {
  ts_year : Z;
  ts_month : Z;
  ts_day : Z;
  ts_hour : Z;
  ts_minute : Z;
  ts_second : Z;
  ts_tz : option string
}.

(** Days since 1970-01-01 of a proleptic Gregorian date. *)
Definition days_from_civil (y m d : Z) : Z :=
  let y' := if m <=? 2 then y - 1 else y in
  let era := y' / 400 in
  let yoe := y' - era * 400 in
  let mp := (m + 9) mod 12 in
  let doy := (153 * mp + 2) / 5 + d - 1 in
  let doe := yoe * 365 + yoe / 4 - yoe / 100 + doy in
  era * 146097 + doe - 719468.

Definition date_ordinal (t : Timestamp) : Z :=
  days_from_civil (ts_year t) (ts_month t) (ts_day t).

(** Seconds of the wall clock since the epoch, the zone ignored. *)
Definition wall_seconds (t : Timestamp) : Z :=
  date_ordinal t * 86400 + ts_hour t * 3600 + ts_minute t * 60 + ts_second t.

(** [ts.tz_localize(None)]: drop the zone, keep the wall clock. *)
Definition tz_strip (t : Timestamp) : Timestamp :=
  mkTimestamp (ts_year t) (ts_month t) (ts_day t)
              (ts_hour t) (ts_minute t) (ts_second t) None.

(** [(a - b).days] of two naive timestamps: whole days, rounded down. *)
Definition timedelta_days (a b : Timestamp) : Z :=
  (wall_seconds a - wall_seconds b) / 86400.

Definition valid_time (hh mm : Z) : bool :=
  (0 <=? hh) && (hh <=? 23) && (0 <=? mm) && (mm <=? 59).

(** [pd.Timestamp(year=d.year, month=d.month, day=d.day, hour=hh,
    minute=mm)].  The date fields come from an existing timestamp and
    are in range; the hour and the minute are checked. *)
Definition naive_at (date_val : Timestamp) (hh mm : Z) : Timestamp :=
  mkTimestamp (ts_year date_val) (ts_month date_val) (ts_day date_val)
              hh mm 0 None.

Definition pd_Timestamp (date_val : Timestamp) (hh mm : Z)
  : result Timestamp :=
  if valid_time hh mm then Ok (naive_at date_val hh mm) else Raise ValueError.

(** The wall clock of [ts] with the zone [tzname] attached. *)
Definition with_tz (ts : Timestamp) (tzname : string) : Timestamp :=
  mkTimestamp (ts_year ts) (ts_month ts) (ts_day ts)
              (ts_hour ts) (ts_minute ts) (ts_second ts) (Some tzname).

(** ** Price data *)

(** One row of the input frame, columns [REQUIRED_COLS]. *)
Record Bar : Type := mkBar {
  date : Timestamp;
  open : Q;
  high : Q;
  low : Q;
  close : Q;
  volume : Q
}.

Definition REQUIRED_COLS : list string :=
  ["date"; "open"; "high"; "low"; "close"; "volume"]%string.

Definition OUTPUT_COLS : list string :=
  ["entry_dt"; "entry_price"; "qty"; "exit_dt"; "exit_price"; "pnl";
   "bars_held"]%string.

(** A row of the frame returned by [compute_sma_signals]; [signal] is
    an option so that a frame with missing signals can be given to
    [generate_orders]. *)
Record SignalBar : Type := mkSignalBar {
  bar : Bar;
  sma_fast : option Q;
  sma_slow : option Q;
  signal : option Z
}.

(** ** Signal generator *)

Definition Qsum (xs : list Q) : Q := fold_right Qplus 0%Q xs.

(** [close.rolling(w).mean()] at position [i]: undefined until the
    window is full, then the mean of the last [w] values. *)
Definition rolling_mean_at (w : Z) (xs : list Q) (i : nat) : option Q :=
  if (w <=? 0) || (Z.of_nat i + 1 <? w) then None
  else Some (Qsum (take (Z.to_nat w) (drop (i + 1 - Z.to_nat w) xs))
             / inject_Z w)%Q.

(** [rolling(w)] rejects a negative window. *)
Definition rolling_mean (w : Z) (xs : list Q) : result (list (option Q)) :=
  if w <? 0 then Raise ValueError
  else Ok (map (rolling_mean_at w xs) (seq 0 (length xs))).

Definition Qgtb (a b : Q) : bool := negb (Qle_bool a b).

(** [a > b] on two cells: a comparison with NaN is false. *)
Definition gt_cell (a b : option Q) : bool :=
  match a, b with
  | Some x, Some y => Qgtb x y
  | _, _ => false
  end.

(** [bool.astype(int)] *)
Definition astype_int (b : bool) : Z := if b then 1 else 0.

(** The output frame: the input rows with the two averages and the
    signal column [(sma_fast > sma_slow).astype(int)]. *)
Definition with_signal (df : list Bar) (f s : list (option Q))
  : list SignalBar :=
  zip_with (fun b fs => mkSignalBar b (fst fs) (snd fs)
                          (Some (astype_int (gt_cell (fst fs) (snd fs)))))
           df (zip f s).

Definition compute_sma_signals (df : list Bar) (fast slow : Z)
  : result (list SignalBar) :=
  f ← rolling_mean fast (map close df);
  s ← rolling_mean slow (map close df);
  Ok (with_signal df f s).

(** ** Order simulator *)

(** The dict [open_entry] of the position being held. *)
Record OpenEntry : Type := mkOpenEntry {
  oe_entry_dt : Timestamp;
  oe_entry_price : Q;
  oe_qty : Z
}.

(** One dict of the list [orders]; a field that the code sets to the
    empty string is [None]. *)
Record Order : Type := mkOrder {
  entry_dt : Timestamp;
  entry_price : Q;
  qty : Z;
  exit_dt : option Timestamp;
  exit_price : option Q;
  pnl : option Q;
  bars_held : option Z
}.

(** The field [qty], under a name that the parameter [qty] of
    [generate_orders] does not hide. *)
Definition order_qty (o : Order) : Z := qty o.

(** A row of [out]: the input row and its [signal_prev] cell. *)
Record OutRow : Type := mkOutRow {
  sbar : SignalBar;
  signal_prev : Z
}.

(** [s.shift(1)]: every value moves one position down, the first cell
    becomes NaN and the last value is dropped. *)
Definition shift1 {A : Type} (xs : list (option A)) : list (option A) :=
  take (length xs) (None :: xs).

(** [s.fillna(0)] *)
Definition fillna0 (xs : list (option Z)) : list Z := map (default 0) xs.

(** [out["signal_prev"] = out["signal"].shift(1).fillna(0)] *)
Definition add_signal_prev (df : list SignalBar) : list OutRow :=
  zip_with mkOutRow df (fillna0 (shift1 (map signal df))).

(** [out.iloc[idx]] *)
Definition iloc {A : Type} (out : list A) (idx : nat) : result A :=
  match out !! idx with
  | Some r => Ok r
  | None => Raise IndexError
  end.

(** [row["signal"] == v]: false on a missing signal. *)
Definition signal_is (r : OutRow) (v : Z) : bool :=
  match signal (sbar r) with
  | Some s => s =? v
  | None => false
  end.

(** The loop variables [open_entry] and [orders]. *)
Record State : Type := mkState {
  open_entry : option OpenEntry;
  orders : list Order
}.

Definition init_state : State := mkState None [].

(** The record appended when a position is still open at the end. *)
Definition open_order (e : OpenEntry) : Order :=
  mkOrder (oe_entry_dt e) (oe_entry_price e) (oe_qty e) None None None None.

(** The time-zone database: [tz_localizable tzname ts] says that the
    zone [tzname] is known and that the wall clock of [ts] exists
    exactly once in it. *)
Class TzDatabase : Type :=
  tz_localizable : string -> Timestamp -> bool.

(** [ts.tz_localize(tzname)]: the same wall clock with the zone
    attached; raises on an aware timestamp, an unknown zone, or a wall
    clock that is skipped or repeated in the zone. *)
Definition tz_localize `{tzdb : TzDatabase} (ts : Timestamp) (tzname : string)
  : result Timestamp :=
  match ts_tz ts with
  | Some _ => Raise TypeError
  | None =>
      if tz_localizable tzname ts then Ok (with_tz ts tzname)
      else Raise TzError
  end.

Definition _make_dt `{tzdb : TzDatabase} (date_val : Timestamp) (hh mm : Z)
  (tzname : string) : result Timestamp :=
  ts ← pd_Timestamp date_val hh mm;
  match tz_localize ts tzname with
  | Ok r => Ok r
  | Raise _ => Ok ts
  end.

(** The first [if] of the loop body: open a position. *)
Definition try_entry `{tzdb : TzDatabase} (row next_row : OutRow) (qty : Z)
  (tzname : string) (st : State) : result State :=
  if (signal_prev row =? 0) && signal_is row 1
     && bool_decide (open_entry st = None)
  then
    dt ← _make_dt (date (bar (sbar next_row))) 9 15 tzname;
    Ok (mkState (Some (mkOpenEntry dt (open (bar (sbar next_row))) qty))
                (orders st))
  else Ok st.

(** The second [if] of the loop body: close the position.  The last
    test, [open_entry is not None], is the [match]. *)
Definition try_exit `{tzdb : TzDatabase} (row next_row : OutRow)
  (tzname : string) (st : State) : result State :=
  if (signal_prev row =? 1) && signal_is row 0
  then
    match open_entry st with
    | Some e =>
        exit_dt ← _make_dt (date (bar (sbar next_row))) 9 15 tzname;
        let pnl := ((open (bar (sbar next_row)) - oe_entry_price e)
                    * inject_Z (oe_qty e))%Q in
        let bars_held :=
          timedelta_days (tz_strip exit_dt) (tz_strip (oe_entry_dt e)) in
        Ok (mkState None
              (orders st ++
               [mkOrder (oe_entry_dt e) (oe_entry_price e) (oe_qty e)
                        (Some exit_dt) (Some (open (bar (sbar next_row))))
                        (Some pnl) (Some bars_held)]))
    | None => Ok st
    end
  else Ok st.

(** One iteration of [for idx in range(n - 1)]. *)
Definition loop_body `{tzdb : TzDatabase} (out : list OutRow) (qty : Z)
  (tzname : string) (st : State) (idx : nat) : result State :=
  row ← iloc out idx;
  next_row ← iloc out (idx + 1);
  st1 ← try_entry row next_row qty tzname st;
  try_exit row next_row tzname st1.

(** The first [k] iterations of the loop, from [open_entry = None] and
    [orders = []]; [generate_orders] runs [n - 1] of them. *)
Definition run_loop `{tzdb : TzDatabase} (out : list OutRow) (qty : Z)
  (tzname : string) (k : nat) : result State :=
  foldM (loop_body out qty tzname) (seq 0 k) init_state.

(** The list [orders] after the final [if open_entry is not None]. *)
Definition finish (st : State) : list Order :=
  match open_entry st with
  | Some e => orders st ++ [open_order e]
  | None => orders st
  end.

(** Lines 46-94 of [generate_orders]: the list [orders] from which the
    returned frame is built. *)
Definition order_list `{tzdb : TzDatabase} (df : list SignalBar) (qty : Z)
  (tzname : string) : result (list Order) :=
  let out := add_signal_prev df in
  let n := length out in
  st ← run_loop out qty tzname (n - 1);
  Ok (finish st).

(** ** The returned frame *)

(** A cell of a frame of dtype [object]. *)
Inductive Cell : Type :=
  | CTs (t : Timestamp)
  | CFloat (q : Q)
  | CInt (z : Z)
  | CStr (s : string)
  | CNaN.

(** A frame: its columns in order, each with its cells. *)
Definition DataFrame : Type := list (string * list Cell).


(** [df[c]] *)
Fixpoint df_get (c : string) (df : DataFrame) : option (list Cell) :=
  match df with
  | [] => None
  | kc :: df' => if decide (fst kc = c) then Some (snd kc) else df_get c df'
  end.

(** [df[c] = col] on an existing column: replaced in place. *)
Definition df_set (c : string) (col : list Cell) (df : DataFrame)
  : DataFrame :=
  map (fun kc => if decide (fst kc = c) then (fst kc, col) else kc) df.

Definition blank_or {A : Type} (f : A -> Cell) (x : option A) : Cell :=
  match x with
  | Some a => f a
  | None => CStr ""
  end.

(** The value of the dict [o] at key [c]; a key the dict lacks gives
    NaN in the frame. *)
Definition order_get (c : string) (o : Order) : Cell :=
  if decide (c = "entry_dt"%string) then CTs (entry_dt o)
  else if decide (c = "entry_price"%string) then CFloat (entry_price o)
  else if decide (c = "qty"%string) then CInt (qty o)
  else if decide (c = "exit_dt"%string) then blank_or CTs (exit_dt o)
  else if decide (c = "exit_price"%string) then blank_or CFloat (exit_price o)
  else if decide (c = "pnl"%string) then blank_or CFloat (pnl o)
  else if decide (c = "bars_held"%string) then blank_or CInt (bars_held o)
  else CNaN.

(** [pd.DataFrame(orders, columns=cols)] *)
Definition pd_DataFrame (orders : list Order) (cols : list string)
  : DataFrame :=
  map (fun c => (c, map (order_get c) orders)) cols.

Definition cell_has_tz (tzname : string) (c : Cell) : bool :=
  match c with
  | CTs t => bool_decide (ts_tz t = Some tzname)
  | _ => false
  end.

(** [col.dtype == "datetime64[ns, <tzname>]"]: a column gets this
    dtype when it is not empty and all its cells are timestamps of
    that zone; anything else is another datetime dtype or [object]. *)
Definition dtype_is_datetime_tz (tzname : string) (col : list Cell) : bool :=
  match col with
  | [] => false
  | _ => forallb (cell_has_tz tzname) col
  end.

(** One element of [pd.to_datetime]: a timestamp is kept, the empty
    string and NaN become NaT ([None]).  Parsing a non-empty string or
    a number is not modelled and reported as a failure; no timestamp
    column of the ledger holds such a cell. *)
Definition to_datetime_cell (c : Cell) : result (option Timestamp) :=
  match c with
  | CTs t => Ok (Some t)
  | CStr s => if decide (s = ""%string) then Ok None else Raise ValueError
  | CNaN => Ok None
  | CFloat _ | CInt _ => Raise ValueError
  end.

Fixpoint mapM {A B : Type} (f : A -> result B) (xs : list A)
  : result (list B) :=
  match xs with
  | [] => Ok []
  | x :: xs' => y ← f x; ys ← mapM f xs'; Ok (y :: ys)
  end.

(** The zones of the timestamps of a converted column, NaT skipped. *)
Definition zones (ds : list (option Timestamp)) : list (option string) :=
  omap (fmap ts_tz) ds.

Definition same_zone (zs : list (option string)) : bool :=
  match zs with
  | [] => true
  | z :: zs' => forallb (fun z' => bool_decide (z' = z)) zs'
  end.

(** [pd.to_datetime(col)]: raises when the column mixes naive and
    aware timestamps, or timestamps of two zones. *)
Definition to_datetime (col : list Cell)
  : result (list (option Timestamp)) :=
  ds ← mapM to_datetime_cell col;
  if same_zone (zones ds) then Ok ds else Raise ValueError.

Definition digit_char (d : Z) : ascii := ascii_of_nat (48 + Z.to_nat d).

Fixpoint dec_aux (fuel : nat) (n : Z) (acc : string) : string :=
  match fuel with
  | O => acc
  | S f =>
      let acc' := String (digit_char (n mod 10)) acc in
      if n / 10 =? 0 then acc' else dec_aux f (n / 10) acc'
  end.

(** The decimal digits of a natural number. *)
Definition dec (n : Z) : string := dec_aux (4 + Z.to_nat n) n "".

(** [%m], [%d], [%H], [%M], [%S]: two digits, zero padded. *)
Definition pad2 (n : Z) : string :=
  if n <? 10 then String "0" (dec n) else dec n.

(** [%Y]: four digits, zero padded. *)
Definition pad4 (n : Z) : string :=
  if n <? 10 then String "0" (String "0" (String "0" (dec n)))
  else if n <? 100 then String "0" (String "0" (dec n))
  else if n <? 1000 then String "0" (dec n)
  else dec n.

(** [t.strftime("%Y-%m-%d %H:%M:%S")]: the wall clock, no zone. *)
Definition strftime (t : Timestamp) : string :=
  (pad4 (ts_year t) +:+ "-" +:+ pad2 (ts_month t) +:+ "-" +:+ pad2 (ts_day t)
   +:+ " " +:+ pad2 (ts_hour t) +:+ ":" +:+ pad2 (ts_minute t) +:+ ":"
   +:+ pad2 (ts_second t))%string.

(** An element of [.dt.strftime(...)]: NaT gives NaN. *)
Definition strftime_cell (d : option Timestamp) : Cell :=
  match d with
  | Some t => CStr (strftime t)
  | None => CNaN
  end.

(** The body of [for c in ["entry_dt", "exit_dt"]]. *)
Definition format_column (df : DataFrame) (c : string) : result DataFrame :=
  match df_get c df with
  | Some col =>
      if dtype_is_datetime_tz "Asia/Kolkata" col
      then
        ds ← to_datetime col;
        Ok (df_set c (map strftime_cell (map (fmap tz_strip) ds)) df)
      else
        match to_datetime col with
        | Ok ds => Ok (df_set c (map strftime_cell ds) df)
        | Raise _ => Ok df
        end
  | None => Ok df
  end.

Definition generate_orders `{tzdb : TzDatabase} (df : list SignalBar) (qty : Z)
  (tzname : string) : result DataFrame :=
  orders ← order_list df qty tzname;
  let orders_df := pd_DataFrame orders OUTPUT_COLS in
  foldM format_column ["entry_dt"; "exit_dt"]%string orders_df.

(** ** Notions used by the statements *)

(** Every signal cell is populated. *)
Definition signal_complete (df : list SignalBar) : bool :=
  forallb (fun r => bool_decide (is_Some (signal r))) df.

(** The signal of the bar before [idx]; bar 0 has no predecessor and
    its previous signal is 0. *)
Definition prev_signal (df : list SignalBar) (idx : nat) : option Z :=
  match idx with
  | O => Some 0
  | S j => r ← df !! j; signal r
  end.

(** A finalized trade record: all four exit fields are present. *)
Definition is_closed (o : Order) : bool :=
  bool_decide (is_Some (exit_dt o)) && bool_decide (is_Some (exit_price o))
  && bool_decide (is_Some (pnl o)) && bool_decide (is_Some (bars_held o)).

(** An open trade record: all four exit fields are absent. *)
Definition is_open (o : Order) : bool :=
  bool_decide (exit_dt o = None) && bool_decide (exit_price o = None)
  && bool_decide (pnl o = None) && bool_decide (bars_held o = None).

(** The positions open in state [st]: the exit-absent records of the
    ledger if the series ended here. *)
Definition open_positions (st : State) : nat :=
  length (filter (fun o => is_open o = true) (finish st)).

(** The timestamp of a fill on the bar dated [d]: 09:15 on that date,
    in the zone [tzname] when the zone takes it. *)
Definition fill_dt `{tzdb : TzDatabase} (d : Timestamp) (tzname : string)
  : Timestamp :=
  if tz_localizable tzname (naive_at d 9 15)
  then with_tz (naive_at d 9 15) tzname
  else naive_at d 9 15.

(** The position opened by a fill on [next_row]. *)
Definition entry_on `{tzdb : TzDatabase} (next_row : SignalBar) (qty : Z)
  (tzname : string) : OpenEntry :=
  mkOpenEntry (fill_dt (date (bar next_row)) tzname) (open (bar next_row)) qty.

(** The record of closing the position [e] by a fill on [next_row]. *)
Definition exit_on `{tzdb : TzDatabase} (e : OpenEntry) (next_row : SignalBar)
  (tzname : string) : Order :=
  mkOrder (oe_entry_dt e) (oe_entry_price e) (oe_qty e)
    (Some (fill_dt (date (bar next_row)) tzname))
    (Some (open (bar next_row)))
    (Some ((open (bar next_row) - oe_entry_price e) * inject_Z (oe_qty e))%Q)
    (Some (timedelta_days (tz_strip (fill_dt (date (bar next_row)) tzname))
                          (tz_strip (oe_entry_dt e)))).

(** The loop body as a function of the state: [p] is the row's
    [signal_prev] cell. *)
Definition step `{tzdb : TzDatabase} (p : Z) (row next_row : SignalBar)
  (qty : Z) (tzname : string) (st : State) : State :=
  let st1 :=
    if (p =? 0) && bool_decide (signal row = Some 1)
       && bool_decide (open_entry st = None)
    then mkState (Some (entry_on next_row qty tzname)) (orders st)
    else st in
  match open_entry st1 with
  | Some e =>
      if (p =? 1) && bool_decide (signal row = Some 0)
      then mkState None (orders st1 ++ [exit_on e next_row tzname])
      else st1
  | None => st1
  end.

(** The state after [k] iterations over the frame [df]. *)
Fixpoint trace `{tzdb : TzDatabase} (df : list SignalBar) (qty : Z)
  (tzname : string) (k : nat) : State :=
  match k with
  | O => init_state
  | S j =>
      match df !! j, df !! (j + 1)%nat with
      | Some row, Some next_row =>
          step (default 0 (prev_signal df j)) row next_row qty tzname
               (trace df qty tzname j)
      | _, _ => trace df qty tzname j
      end
  end.

(** A position [e] was opened by iteration [i]: the 0-to-1 step was
    seen there with no position held, and filled on bar [i + 1]. *)
Definition entered_at `{tzdb : TzDatabase} (df : list SignalBar) (qty : Z)
  (tzname : string) (i : nat) (e : OpenEntry) : Prop :=
  exists row next_row,
    df !! i = Some row /\ df !! (i + 1)%nat = Some next_row /\
    default 0 (prev_signal df i) = 0 /\ signal row = Some 1 /\
    open_entry (trace df qty tzname i) = None /\
    e = entry_on next_row qty tzname.

(** [st] is the state of the loop of [generate_orders] on [df] after
    [k] iterations. *)
Definition state_after `{tzdb : TzDatabase} (df : list SignalBar) (qty : Z)
  (tzname : string) (k : nat) (st : State) : Prop :=
  run_loop (add_signal_prev df) qty tzname k = Ok st.


(** A timestamp column after the formatting loop: strings (NaN for a
    blank) when [pd.to_datetime] takes the column, the cells as they
    were when it raises. *)
Definition render_dt_column (ds : list (option Timestamp)) : list Cell :=
  if same_zone (zones ds) then map strftime_cell ds
  else map (blank_or CTs) ds.

(** The frame of the list of records [os]. *)
Definition ledger_frame (os : list Order) : DataFrame :=
  [("entry_dt"%string, render_dt_column (map (fun o => Some (entry_dt o)) os));
   ("entry_price"%string, map (fun o => CFloat (entry_price o)) os);
   ("qty"%string, map (fun o => CInt (order_qty o)) os);
   ("exit_dt"%string, render_dt_column (map exit_dt os));
   ("exit_price"%string, map (fun o => blank_or CFloat (exit_price o)) os);
   ("pnl"%string, map (fun o => blank_or CFloat (pnl o)) os);
   ("bars_held"%string, map (fun o => blank_or CInt (bars_held o)) os)].




(** The zone takes the 09:15 wall clock of every bar date of [df], or
    of none. *)
Definition uniform_zone `{tzdb : TzDatabase} (df : list SignalBar)
  (tzname : string) : Prop :=
  exists u, forall r, r ∈ df ->
    tz_localizable tzname (naive_at (date (bar r)) 9 15) = u.

(** The input frame with the signal of its last row replaced. *)
Definition set_signal (s : option Z) (r : SignalBar) : SignalBar :=
  mkSignalBar (bar r) (sma_fast r) (sma_slow r) s.

(** ** Sample data *)

(** A small zone database: India and UTC have no skipped or repeated
    wall clock at 09:15; Samoa skipped the whole of 2011-12-30 when it
    moved across the date line; no other name is known. *)
Definition sample_tzdb : TzDatabase := fun tzname ts =>
  if decide (tzname = "Asia/Kolkata"%string) then true
  else if decide (tzname = "UTC"%string) then true
  else if decide (tzname = "Pacific/Apia"%string)
       then negb (bool_decide ((ts_year ts, ts_month ts, ts_day ts)
                               = (2011, 12, 30)))
       else false.

Definition day (y m d : Z) : Timestamp := mkTimestamp y m d 0 0 0 None.

Definition bar_of (d : Timestamp) (o c : Q) : Bar := mkBar d o o o c 0.

Definition sbar_of (d : Timestamp) (o : Q) (s : Z) : SignalBar :=
  mkSignalBar (bar_of d o o) None None (Some s).

(** Six bars with closes 10, 10, 10, 12, 12, 8; a weekend lies between
    the last two. *)
Definition six_bars : list Bar :=
  [bar_of (day 2024 1 1) 101 10; bar_of (day 2024 1 2) 102 10;
   bar_of (day 2024 1 3) 103 10; bar_of (day 2024 1 4) 104 12;
   bar_of (day 2024 1 5) 105 12; bar_of (day 2024 1 8) 106 8]%Q.

(** Signal 0 1 0 0: entry filled on Thursday, exit filled on Friday. *)
Definition thu_fri : list SignalBar :=
  [sbar_of (day 2024 1 3) 100 1; sbar_of (day 2024 1 4) 101 0;
   sbar_of (day 2024 1 5) 103 0]%Q.

(** The same signal, entry filled on Friday, exit filled on Monday. *)
Definition fri_mon : list SignalBar :=
  [sbar_of (day 2024 1 4) 100 1; sbar_of (day 2024 1 5) 101 0;
   sbar_of (day 2024 1 8) 103 0]%Q.

(** Two entries; the second is filled on the day Samoa skipped. *)
Definition apia_bars : list SignalBar :=
  [sbar_of (day 2011 12 27) 11 1; sbar_of (day 2011 12 28) 12 0;
   sbar_of (day 2011 12 29) 13 1; sbar_of (day 2011 12 30) 14 1;
   sbar_of (day 2011 12 31) 15 0]%Q.

(** Signal 1 2 0 1 0: the position opened by iteration 0 is still
    held when the 0-to-1 step of iteration 3 is met. *)
Definition step_while_holding : list SignalBar :=
  [sbar_of (day 2024 1 1) 10 1; sbar_of (day 2024 1 2) 11 2;
   sbar_of (day 2024 1 3) 12 0; sbar_of (day 2024 1 4) 13 1;
   sbar_of (day 2024 1 5) 14 0]%Q.

(** Signal 2 1 0 0: no position is held when the 1-to-0 step of
    iteration 2 is met. *)
Definition step_while_flat : list SignalBar :=
  [sbar_of (day 2024 1 1) 10 2; sbar_of (day 2024 1 2) 11 1;
   sbar_of (day 2024 1 3) 12 0; sbar_of (day 2024 1 4) 13 0]%Q.

(** [hold_bars] with other closes, highs, lows, volumes and averages,
    another first date and open, and another last signal. *)
Definition hold_bars_other : list SignalBar :=
  [mkSignalBar (mkBar (day 2023 12 29) 99 120 80 100 7)
               (Some 1%Q) None (Some 0);
   mkSignalBar (mkBar (day 2024 1 2) 11 15 9 12 0) None (Some 2%Q) (Some 1);
   mkSignalBar (mkBar (day 2024 1 3) 12 13 11 11 5) None None (Some 1);
   mkSignalBar (mkBar (day 2024 1 4) 13 14 12 12 5) None None (Some 0);
   mkSignalBar (mkBar (day 2024 1 5) 14 15 13 13 5) None None None].

(** Signal 0 NaN 1 0 0: a gap in the signal column, then a 1. *)
Definition gap_bars : list SignalBar :=
  [sbar_of (day 2024 1 1) 10 0;
   mkSignalBar (bar_of (day 2024 1 2) 11 11) None None None;
   sbar_of (day 2024 1 3) 12 1; sbar_of (day 2024 1 4) 13 0;
   sbar_of (day 2024 1 5) 14 0]%Q.

(** Signal 1 0 1 0 0: two round trips, on consecutive days. *)
Definition two_trades : list SignalBar :=
  [sbar_of (day 2024 1 1) 10 1; sbar_of (day 2024 1 2) 11 0;
   sbar_of (day 2024 1 3) 12 1; sbar_of (day 2024 1 4) 13 0;
   sbar_of (day 2024 1 5) 14 0]%Q.

(** Signal 0 1 1 0 0. *)
Definition hold_bars : list SignalBar :=
  [sbar_of (day 2024 1 1) 10 0; sbar_of (day 2024 1 2) 11 1;
   sbar_of (day 2024 1 3) 12 1; sbar_of (day 2024 1 4) 13 0;
   sbar_of (day 2024 1 5) 14 0]%Q.

(** ** Loading the price file and running the strategy *)

(** The order of the [date] column: naive timestamps compare by date,
    then by time of day. *)
Definition date_le (a b : Bar) : Prop :=
  wall_seconds (date a) <= wall_seconds (date b).

(** [df.sort_values("date")].  pandas sorts one column with an
    unstable algorithm, so the order it gives to rows of equal date is
    not fixed: the sort is a parameter, known to return the rows it
    was given, in ascending order of date. *)
Class DateSort : Type := {
  sort_values_date : list Bar -> list Bar;
  sort_values_date_perm : forall l, sort_values_date l ≡ₚ l;
  sort_values_date_sorted : forall l, Sorted date_le (sort_values_date l)
}.

(** [load_data], from what [pd.read_csv] and [pd.to_datetime] give: the
    column names of the file and its rows, dates parsed.  The rows come
    back sorted and renumbered. *)
Definition load_data `{srt : DateSort} (columns : list string)
  (rows : list Bar) : result (list Bar) :=
  if decide (columns = REQUIRED_COLS) then Ok (sort_values_date rows)
  else Raise ValueError.

(** [run], between reading the configuration and writing the sheet:
    [fast], [slow] and [qty] are the integers of the configuration,
    [timezone] is its "timezone" entry, [None] when the key is absent;
    the result is the frame written to the sheet. *)
Definition run `{tzdb : TzDatabase} `{srt : DateSort}
  (columns : list string) (rows : list Bar) (fast slow qty : Z)
  (timezone : option string) : result DataFrame :=
  df ← load_data columns rows;
  let tzname := default "Asia/Kolkata"%string timezone in
  df_sig ← compute_sma_signals df fast slow;
  generate_orders df_sig qty tzname.

(** A time of day a timestamp can hold. *)
Definition valid_clock (t : Timestamp) : bool :=
  (0 <=? ts_hour t) && (ts_hour t <=? 23)
  && (0 <=? ts_minute t) && (ts_minute t <=? 59)
  && (0 <=? ts_second t) && (ts_second t <=? 59).

(** A sort that fits [DateSort]: merge sort on the date. *)
Definition merge_date_sort : DateSort :=
  {| sort_values_date :=
       merge_sort date_le
         (H := fun a b => decide (wall_seconds (date a)
                                  <= wall_seconds (date b)));
     sort_values_date_perm := merge_sort_Permutation date_le;
     sort_values_date_sorted :=
       Sorted_merge_sort date_le
         (Total0 := fun a b => Z.le_ge_cases (wall_seconds (date a))
                                             (wall_seconds (date b))) |}.

(** ** Further notions *)

(** Every signal cell holds 0 or 1, as in a frame returned by
    [compute_sma_signals]. *)
Definition binary_signals (df : list SignalBar) : bool :=
  forallb (fun r => match signal r with
                    | Some s => (s =? 0) || (s =? 1)
                    | None => false
                    end) df.

(** The iterations of the loop that meet a 0-to-1 step: the rows of
    [out] before the last whose [signal_prev] is 0 and [signal] is 1. *)
Definition entry_steps (df : list SignalBar) : nat :=
  length (filter (fun r => (signal_prev r =? 0) && signal_is r 1 = true)
                 (take (length df - 1) (add_signal_prev df))).

(** What the order simulator reads of a frame: the signal of every row
    but the last, and the date and open of every row but the first. *)
Definition ledger_view (df : list SignalBar)
  : list (option Z) * list (Timestamp * Q) :=
  (map signal (take (length df - 1) df),
   map (fun r => (date (bar r), open (bar r))) (drop 1 df)).

(** The record [o] was entered by iteration [fst ij], filled on the
    next bar, and exited by the later iteration [snd ij], filled on
    the bar after that one. *)
Definition filled_on `{tzdb : TzDatabase} (df : list SignalBar) (qty : Z)
  (tzname : string) (ij : nat * nat) (o : Order) : Prop :=
  (fst ij < snd ij)%nat /\
  exists ni nj,
    df !! (fst ij + 1)%nat = Some ni /\ df !! (snd ij + 1)%nat = Some nj /\
    o = exit_on (entry_on ni qty tzname) nj tzname.

Fixpoint increasing (l : list Z) : bool :=
  match l with
  | a :: ((b :: _) as l') => (a <? b) && increasing l'
  | _ => true
  end.

(** The bar dates are in strictly ascending calendar order. *)
Definition dates_increasing (df : list SignalBar) : bool :=
  increasing (map (fun r => date_ordinal (date (bar r))) df).

(** A record and a state with the zones of their timestamps removed. *)
Definition strip_order (o : Order) : Order :=
  mkOrder (tz_strip (entry_dt o)) (entry_price o) (order_qty o)
          (tz_strip <$> exit_dt o) (exit_price o) (pnl o) (bars_held o).

Definition strip_entry (e : OpenEntry) : OpenEntry :=
  mkOpenEntry (tz_strip (oe_entry_dt e)) (oe_entry_price e) (oe_qty e).

Definition strip_state (st : State) : State :=
  mkState (strip_entry <$> open_entry st) (map strip_order (orders st)).

(** ** Basic facts *)

Lemma foldM_app {S A : Type} (f : S -> A -> result S) (xs ys : list A) (s : S) :
  foldM f (xs ++ ys) s = s' ← foldM f xs s; foldM f ys s'.
Proof.
  revert s. induction xs as [|x xs IH]; intros s; simpl; [done|].
  destruct (f s x) as [s1|e]; simpl; [apply IH|done].
Qed.

Section Run.

Context `{tzdb : TzDatabase}.

Lemma run_loop_S (out : list OutRow) (qty : Z) (tzname : string) (k : nat) :
  run_loop out qty tzname (S k)
  = st ← run_loop out qty tzname k; loop_body out qty tzname st k.
Proof.
  unfold run_loop. rewrite seq_S, foldM_app. simpl.
  destruct (foldM _ (seq 0 k) init_state) as [st|e]; simpl; [|done].
  destruct (loop_body out qty tzname st k); done.
Qed.

Lemma make_dt_fill (d : Timestamp) (tzname : string) :
  _make_dt d 9 15 tzname = Ok (fill_dt d tzname).
Proof.
  unfold _make_dt, pd_Timestamp, tz_localize, fill_dt. simpl.
  destruct (tz_localizable tzname (naive_at d 9 15)); done.
Qed.

Lemma length_add_signal_prev (df : list SignalBar) :
  length (add_signal_prev df) = length df.
Proof.
  unfold add_signal_prev, fillna0, shift1.
  rewrite length_zip_with, length_map, length_take, length_cons, length_map.
  lia.
Qed.

Lemma add_signal_prev_lookup (df : list SignalBar) (idx : nat) (row : SignalBar) :
  df !! idx = Some row ->
  add_signal_prev df !! idx
  = Some (mkOutRow row (default 0 (prev_signal df idx))).
Proof.
  intros Hrow. unfold add_signal_prev.
  apply lookup_zip_with_Some. exists row, (default 0 (prev_signal df idx)).
  split; [done|]. split; [done|].
  unfold fillna0, shift1. rewrite list_lookup_fmap.
  assert (Hlt : (idx < length df)%nat) by (eapply lookup_lt_Some; eauto).
  rewrite lookup_take_lt by (rewrite length_map; lia).
  destruct idx as [|j]; simpl; [done|].
  rewrite list_lookup_fmap.
  destruct (df !! j) as [r|] eqn:Hj; simpl; [done|].
  apply lookup_ge_None in Hj. lia.
Qed.

Lemma signal_is_decide (row : SignalBar) (p v : Z) :
  signal_is (mkOutRow row p) v = bool_decide (signal row = Some v).
Proof.
  unfold signal_is. simpl. destruct (signal row) as [s|]; [|done].
  destruct (Z.eqb_spec s v) as [->|Hne].
  - by rewrite bool_decide_eq_true_2.
  - rewrite bool_decide_eq_false_2; [done|]. intros [= ?]. done.
Qed.

Lemma loop_body_step (df : list SignalBar) (qty : Z) (tzname : string)
  (st : State) (idx : nat) (row next_row : SignalBar) :
  df !! idx = Some row ->
  df !! (idx + 1)%nat = Some next_row ->
  loop_body (add_signal_prev df) qty tzname st idx
  = Ok (step (default 0 (prev_signal df idx)) row next_row qty tzname st).
Proof.
  intros Hrow Hnext. unfold loop_body, iloc.
  rewrite (add_signal_prev_lookup _ _ _ Hrow).
  rewrite (add_signal_prev_lookup _ _ _ Hnext). simpl.
  unfold try_entry, step. rewrite signal_is_decide. simpl.
  set (p := default 0 (prev_signal df idx)).
  destruct ((p =? 0) && bool_decide (signal row = Some 1)
            && bool_decide (open_entry st = None)) eqn:Hentry; simpl.
  - rewrite make_dt_fill. simpl. unfold try_exit. simpl.
    rewrite signal_is_decide, make_dt_fill. simpl.
    destruct ((p =? 1) && bool_decide (signal row = Some 0)); done.
  - unfold try_exit. rewrite signal_is_decide, make_dt_fill. simpl.
    destruct (open_entry st) as [e|];
      destruct ((p =? 1) && bool_decide (signal row = Some 0)); done.
Qed.

Lemma run_loop_trace (df : list SignalBar) (qty : Z) (tzname : string) (k : nat) :
  (k <= length df - 1)%nat ->
  run_loop (add_signal_prev df) qty tzname k = Ok (trace df qty tzname k).
Proof.
  induction k as [|k IH]; intros Hk; [done|].
  rewrite run_loop_S, IH by lia. simpl.
  destruct (lookup_lt_is_Some_2 df k) as [row Hrow]; [lia|].
  destruct (lookup_lt_is_Some_2 df (k + 1)%nat) as [next_row Hnext]; [lia|].
  rewrite Hrow, Hnext. by apply loop_body_step.
Qed.

Lemma order_list_trace (df : list SignalBar) (qty : Z) (tzname : string) :
  order_list df qty tzname
  = Ok (finish (trace df qty tzname (length df - 1))).
Proof.
  unfold order_list. rewrite length_add_signal_prev.
  by rewrite run_loop_trace.
Qed.

(** The three ways an iteration can go. *)
Lemma step_cases (p : Z) (row next_row : SignalBar) (qty : Z) (tzname : string)
  (st : State) :
  (p = 0 /\ signal row = Some 1 /\ open_entry st = None /\
   step p row next_row qty tzname st
   = mkState (Some (entry_on next_row qty tzname)) (orders st))
  \/ (p = 1 /\ signal row = Some 0 /\
      exists e, open_entry st = Some e /\
        step p row next_row qty tzname st
        = mkState None (orders st ++ [exit_on e next_row tzname]))
  \/ (step p row next_row qty tzname st = st /\
      ~ (p = 0 /\ signal row = Some 1 /\ open_entry st = None) /\
      ~ (p = 1 /\ signal row = Some 0 /\ is_Some (open_entry st))).
Proof.
  unfold step.
  destruct ((p =? 0) && bool_decide (signal row = Some 1)
            && bool_decide (open_entry st = None)) eqn:Hentry.
  - apply andb_prop in Hentry as [Hentry Hnone].
    apply andb_prop in Hentry as [Hp Hsig].
    apply Z.eqb_eq in Hp. apply bool_decide_eq_true_1 in Hsig, Hnone.
    left. simpl. subst p. simpl. done.
  - destruct (open_entry st) as [e|] eqn:Hopen.
    + destruct ((p =? 1) && bool_decide (signal row = Some 0)) eqn:Hexit.
      * apply andb_prop in Hexit as [Hp Hsig].
        apply Z.eqb_eq in Hp. apply bool_decide_eq_true_1 in Hsig.
        right; left. repeat split; try done. by exists e.
      * right; right. split; [by destruct st; simpl in *; subst|].
        split; [intros (_ & _ & ?); done|].
        intros (Hp & Hsig & _). subst p.
        rewrite bool_decide_eq_true_2 in Hexit by done. done.
    + right; right. split; [by destruct st; simpl in *; subst|].
      split.
      * intros (Hp & Hsig & _). subst p.
        rewrite bool_decide_eq_true_2 in Hentry by done. done.
      * intros (_ & _ & [? ?]). done.
Qed.

Lemma step_next_ext (p : Z) (row n1 n2 : SignalBar) (qty : Z) (tzname : string)
  (st : State) :
  bar n1 = bar n2 ->
  step p row n1 qty tzname st = step p row n2 qty tzname st.
Proof.
  intros Hbar. unfold step, entry_on, exit_on. by rewrite Hbar.
Qed.

Lemma trace_S (df : list SignalBar) (qty : Z) (tzname : string) (k : nat) :
  (k + 1 < length df)%nat ->
  exists row next_row,
    df !! k = Some row /\ df !! (k + 1)%nat = Some next_row /\
    trace df qty tzname (S k)
    = step (default 0 (prev_signal df k)) row next_row qty tzname
           (trace df qty tzname k).
Proof.
  intros Hk.
  destruct (lookup_lt_is_Some_2 df k) as [row Hrow]; [lia|].
  destruct (lookup_lt_is_Some_2 df (k + 1)%nat) as [next_row Hnext]; [lia|].
  exists row, next_row. simpl. by rewrite Hrow, Hnext.
Qed.

(** On a frame with all signals present, [signal_prev] is the signal
    of the previous bar. *)
Lemma prev_signal_complete (df : list SignalBar) (idx : nat) :
  signal_complete df = true ->
  (idx < length df)%nat ->
  prev_signal df idx = Some (default 0 (prev_signal df idx)).
Proof.
  intros Hc Hidx. destruct idx as [|j]; [done|]. simpl.
  destruct (lookup_lt_is_Some_2 df j) as [r Hr]; [lia|].
  rewrite Hr. simpl.
  unfold signal_complete in Hc. rewrite forallb_forall in Hc.
  assert (Hin : In r df).
  { apply list_elem_of_In. eapply list_elem_of_lookup_2; eauto. }
  apply Hc, bool_decide_eq_true_1 in Hin. destruct Hin as [z ->]. done.
Qed.

Lemma prev_signal_default (df : list SignalBar) (idx : nat) (v : Z) :
  prev_signal df idx = Some v -> default 0 (prev_signal df idx) = v.
Proof. by intros ->. Qed.

(** *** Where the open position and the records come from *)

Lemma open_entry_provenance (df : list SignalBar) (qty : Z) (tzname : string)
  (k : nat) (e : OpenEntry) :
  (k <= length df - 1)%nat ->
  open_entry (trace df qty tzname k) = Some e ->
  exists i, (i < k)%nat /\ entered_at df qty tzname i e /\
    forall j, (i < j <= k)%nat -> open_entry (trace df qty tzname j) = Some e.
Proof.
  induction k as [|k IH]; intros Hk Hopen; [done|].
  destruct (trace_S df qty tzname k) as (row & next_row & Hrow & Hnext & HS);
    [lia|].
  destruct (step_cases (default 0 (prev_signal df k)) row next_row qty tzname
              (trace df qty tzname k))
    as [(Hp & Hsig & Hnone & Hst)|[(Hp & Hsig & e' & He' & Hst)|(Hst & _)]].
  - rewrite HS, Hst in Hopen. simpl in Hopen. injection Hopen as <-.
    exists k. split; [lia|]. split.
    + by exists row, next_row.
    + intros j Hj. assert (j = S k) as -> by lia.
      by rewrite HS, Hst.
  - rewrite HS, Hst in Hopen. done.
  - rewrite HS, Hst in Hopen.
    destruct IH as (i & Hi & Hent & Hheld); [lia|done|].
    exists i. split; [lia|]. split; [done|].
    intros j Hj. destruct (decide (j = S k)) as [->|Hne].
    + by rewrite HS, Hst.
    + apply Hheld. lia.
Qed.

Lemma orders_provenance (df : list SignalBar) (qty : Z) (tzname : string)
  (k : nat) (o : Order) :
  (k <= length df - 1)%nat ->
  o ∈ orders (trace df qty tzname k) ->
  exists i j e next_row,
    (i < j < k)%nat /\ entered_at df qty tzname i e /\
    df !! (j + 1)%nat = Some next_row /\
    o = exit_on e next_row tzname.
Proof.
  induction k as [|k IH]; intros Hk Hin; [by apply elem_of_nil in Hin|].
  destruct (trace_S df qty tzname k) as (row & next_row & Hrow & Hnext & HS);
    [lia|].
  assert (Hold : o ∈ orders (trace df qty tzname k) ->
    exists i j e nr, (i < j < S k)%nat /\ entered_at df qty tzname i e /\
      df !! (j + 1)%nat = Some nr /\ o = exit_on e nr tzname).
  { intros Ho. destruct IH as (i & j & e & nr & Hij & He & Hnr & ->); [lia|done|].
    exists i, j, e, nr. repeat split; try done; lia. }
  destruct (step_cases (default 0 (prev_signal df k)) row next_row qty tzname
              (trace df qty tzname k))
    as [(Hp & Hsig & Hnone & Hst)|[(Hp & Hsig & e' & He' & Hst)|(Hst & _)]];
    rewrite HS, Hst in Hin; simpl in Hin.
  - by apply Hold.
  - apply elem_of_app in Hin as [Hin|Hin]; [by apply Hold|].
    apply list_elem_of_singleton in Hin as ->.
    destruct (open_entry_provenance df qty tzname k e') as (i & Hi & Hent & _);
      [lia|done|].
    exists i, k, e', next_row. repeat split; try done; lia.
  - by apply Hold.
Qed.

Lemma exit_on_closed (e : OpenEntry) (next_row : SignalBar) (tzname : string) :
  is_closed (exit_on e next_row tzname) = true.
Proof. done. Qed.

Lemma orders_closed (df : list SignalBar) (qty : Z) (tzname : string) (k : nat) :
  (k <= length df - 1)%nat ->
  Forall (fun o => is_closed o = true) (orders (trace df qty tzname k)).
Proof.
  intros Hk. apply Forall_forall. intros o Ho.
  destruct (orders_provenance df qty tzname k o Hk Ho)
    as (i & j & e & nr & _ & _ & _ & ->).
  apply exit_on_closed.
Qed.

(** *** The last bar is only ever a lookahead bar *)

Lemma prev_signal_app (l : list SignalBar) (x : SignalBar) (k : nat) :
  (k <= length l)%nat -> prev_signal (l ++ [x]) k = prev_signal l k.
Proof.
  intros Hk. destruct k as [|j]; [done|]. simpl.
  by rewrite lookup_app_l by lia.
Qed.

Lemma trace_last_signal (l : list SignalBar) (b : SignalBar) (s : option Z)
  (qty : Z) (tzname : string) (k : nat) :
  (k <= length l)%nat ->
  trace (l ++ [set_signal s b]) qty tzname k = trace (l ++ [b]) qty tzname k.
Proof.
  induction k as [|k IH]; intros Hk; [done|]. simpl.
  rewrite IH by lia. rewrite !prev_signal_app by lia.
  rewrite (lookup_app_l l [set_signal s b] k) by lia.
  rewrite (lookup_app_l l [b] k) by lia.
  destruct (l !! k) as [row|]; [|done].
  destruct (decide (k + 1 < length l)%nat) as [Hlt|Hge].
  - rewrite (lookup_app_l l [set_signal s b]) by lia.
    by rewrite (lookup_app_l l [b]) by lia.
  - assert (k + 1 = length l)%nat as -> by lia.
    rewrite (list_lookup_middle l [] (set_signal s b)) by done.
    rewrite (list_lookup_middle l [] b) by done.
    by apply step_next_ext.
Qed.

Lemma order_list_last_signal (l : list SignalBar) (b : SignalBar)
  (s : option Z) (qty : Z) (tzname : string) :
  order_list (l ++ [set_signal s b]) qty tzname
  = order_list (l ++ [b]) qty tzname.
Proof.
  rewrite !order_list_trace, !length_app. simpl.
  replace (length l + 1 - 1)%nat with (length l) by lia.
  by rewrite trace_last_signal.
Qed.

(** ** The entry transition *)

(** C1. On a frame with every signal present, an iteration opens a
    position exactly when the previous bar's signal is 0 (bar 0 has
    previous signal 0), the current bar's signal is 1 and no position
    is held; the position is priced at the next bar's open and stamped
    with [_make_dt] of the next bar's date, 09:15 and the zone; a held
    position is kept or closed, never replaced.  The
    last bar is never a current bar: whatever its signal, the returned
    ledger is the same, so a 0-to-1 step on it records nothing. *)
Theorem entry_transition (df : list SignalBar) (qty : Z) (tzname : string) :
  signal_complete df = true ->
  (forall idx, (idx + 1 < length df)%nat ->
     exists st st' row next_row,
       df !! idx = Some row /\ df !! (idx + 1)%nat = Some next_row /\
       state_after df qty tzname idx st /\
       state_after df qty tzname (S idx) st' /\
       ((open_entry st = None /\ is_Some (open_entry st'))
        <-> (prev_signal df idx = Some 0 /\ signal row = Some 1 /\
             open_entry st = None)) /\
       (prev_signal df idx = Some 0 -> signal row = Some 1 ->
        open_entry st = None ->
        exists dt,
          _make_dt (date (bar next_row)) 9 15 tzname = Ok dt /\
          st' = mkState (Some (mkOpenEntry dt (open (bar next_row)) qty))
                        (orders st)) /\
       (forall e, open_entry st = Some e ->
                  open_entry st' = Some e \/ open_entry st' = None))
  /\ (forall l b s, df = l ++ [b] ->
       generate_orders (l ++ [set_signal s b]) qty tzname
       = generate_orders df qty tzname).
Proof.
  intros Hc. split.
  - intros idx Hidx.
    destruct (trace_S df qty tzname idx Hidx)
      as (row & next_row & Hrow & Hnext & HS).
    exists (trace df qty tzname idx), (trace df qty tzname (S idx)),
      row, next_row.
    split; [done|]. split; [done|].
    split; [apply run_loop_trace; lia|].
    split; [apply run_loop_trace; lia|].
    pose proof (prev_signal_complete df idx Hc ltac:(lia)) as Hprev.
    rewrite HS.
    destruct (step_cases (default 0 (prev_signal df idx)) row next_row qty
                tzname (trace df qty tzname idx))
      as [(Hp & Hsig & Hnone & Hst)|[(Hp & Hsig & e & He & Hst)|(Hst & Hn1 & _)]];
      rewrite Hst.
    + rewrite Hp in Hprev. split; [|split].
      * split; [done|]. intros _. simpl. split; [done|]. by eexists.
      * intros _ _ _. exists (fill_dt (date (bar next_row)) tzname).
        split; [apply make_dt_fill|done].
      * intros e' He'. congruence.
    + split; [|split].
      * split; [intros [Hnone _]; congruence|intros (_ & _ & Hnone); congruence].
      * intros _ _ Hnone. congruence.
      * intros e' _. by right.
    + split; [|split].
      * split.
        -- intros [Hnone [x Hx]]. congruence.
        -- intros (Hp & Hsig & Hnone). exfalso. apply Hn1.
           rewrite Hp. done.
      * intros Hp Hsig Hnone. exfalso. apply Hn1. rewrite Hp. done.
      * intros e' He'. by left.
  - intros l b s ->. unfold generate_orders.
    by rewrite order_list_last_signal.
Qed.

(** ** The exit transition *)

(** C2. On every frame, signal-complete or not, when the previous
    bar's signal is 1, the current bar's signal is 0 and a position is
    held, the iteration closes it: the record
    appended carries the position's entry fields, the next bar's open
    as exit price, [_make_dt] of the next bar's date as exit timestamp
    and the P&L (exit price - entry price) * quantity; no position is
    held afterwards. *)
Theorem exit_transition (df : list SignalBar) (qty : Z) (tzname : string)
  (idx : nat) :
  (idx + 1 < length df)%nat ->
  exists st st' row next_row,
    df !! idx = Some row /\ df !! (idx + 1)%nat = Some next_row /\
    state_after df qty tzname idx st /\
    state_after df qty tzname (S idx) st' /\
    forall e,
      prev_signal df idx = Some 1 -> signal row = Some 0 ->
      open_entry st = Some e ->
      exists exit_ts o,
        _make_dt (date (bar next_row)) 9 15 tzname = Ok exit_ts /\
        open_entry st' = None /\
        orders st' = orders st ++ [o] /\
        entry_dt o = oe_entry_dt e /\
        entry_price o = oe_entry_price e /\
        order_qty o = oe_qty e /\
        exit_dt o = Some exit_ts /\
        exit_price o = Some (open (bar next_row)) /\
        pnl o = Some ((open (bar next_row) - entry_price o)
                      * inject_Z (order_qty o))%Q /\
        is_closed o = true.
Proof.
  intros Hidx.
  destruct (trace_S df qty tzname idx Hidx)
    as (row & next_row & Hrow & Hnext & HS).
  exists (trace df qty tzname idx), (trace df qty tzname (S idx)),
    row, next_row.
  split; [done|]. split; [done|].
  split; [apply run_loop_trace; lia|].
  split; [apply run_loop_trace; lia|].
  intros e Hprev Hsig Hopen.
  apply prev_signal_default in Hprev.
  exists (fill_dt (date (bar next_row)) tzname), (exit_on e next_row tzname).
  split; [apply make_dt_fill|].
  rewrite HS.
  destruct (step_cases (default 0 (prev_signal df idx)) row next_row qty
              tzname (trace df qty tzname idx))
    as [(Hp & _)|[(_ & _ & e' & He' & Hst)|(_ & _ & Hn2)]].
  - rewrite Hprev in Hp. done.
  - rewrite Hst. simpl.
    assert (e' = e) as -> by congruence. done.
  - exfalso. apply Hn2. rewrite Hopen. done.
Qed.

(** ** At most one position *)

Lemma open_positions_le_1 (st : State) :
  Forall (fun o => is_closed o = true) (orders st) ->
  (open_positions st <= 1)%nat.
Proof.
  intros Hclosed. unfold open_positions, finish.
  assert (Hnone : filter (fun o => is_open o = true) (orders st) = []).
  { induction Hclosed as [|o os Ho _ IH]; [done|].
    rewrite filter_cons_False; [done|].
    unfold is_closed in Ho. unfold is_open.
    destruct (exit_dt o); simpl in *; done. }
  destruct (open_entry st) as [e|].
  - rewrite filter_app, Hnone. simpl. lia.
  - rewrite Hnone. simpl. lia.
Qed.

(** C3. After every iteration at most one position is open, and the
    records written so far are all finalized.  A 0-to-1 step met while
    a position is held leaves the state as it is (no second position),
    and a 1-to-0 step met while no position is held leaves the state as
    it is (no exit record). *)
Theorem at_most_one_position (df : list SignalBar) (qty : Z) (tzname : string)
  (k : nat) :
  (k <= length df - 1)%nat ->
  exists st,
    state_after df qty tzname k st /\
    (open_positions st <= 1)%nat /\
    Forall (fun o => is_closed o = true) (orders st) /\
    ((k + 1 < length df)%nat ->
     exists row st',
       df !! k = Some row /\
       state_after df qty tzname (S k) st' /\
       (prev_signal df k = Some 0 -> signal row = Some 1 ->
        is_Some (open_entry st) -> st' = st) /\
       (prev_signal df k = Some 1 -> signal row = Some 0 ->
        open_entry st = None -> st' = st)).
Proof.
  intros Hk. exists (trace df qty tzname k).
  split; [by apply run_loop_trace|].
  pose proof (orders_closed df qty tzname k Hk) as Hclosed.
  split; [by apply open_positions_le_1|]. split; [done|].
  intros Hk1.
  destruct (trace_S df qty tzname k Hk1)
    as (row & next_row & Hrow & Hnext & HS).
  exists row, (trace df qty tzname (S k)).
  split; [done|]. split; [apply run_loop_trace; lia|].
  rewrite HS.
  destruct (step_cases (default 0 (prev_signal df k)) row next_row qty
              tzname (trace df qty tzname k))
    as [(Hp & Hsig & Hnone & Hst)|[(Hp & Hsig & e & He & Hst)|(Hst & _)]].
  - split.
    + intros _ _ [e He]. congruence.
    + intros Hprev. apply prev_signal_default in Hprev. lia.
  - split.
    + intros Hprev. apply prev_signal_default in Hprev. lia.
    + intros _ _ Hnone. congruence.
  - by rewrite Hst.
Qed.

(** ** The position still open at the end *)

(** C5. The list of records is the finalized trades followed, when a
    position is still held after the last iteration, by exactly one
    record that carries the position's entry fields and no exit
    timestamp, exit price, P&L or holding duration; without a held
    position nothing is added.  The held position was opened by an
    entry transition at some iteration [i], filled on bar [i + 1], and
    is held after every later iteration: no exit of it was processed. *)
Theorem open_position_flushed (df : list SignalBar) (qty : Z) (tzname : string) :
  exists st,
    state_after df qty tzname (length df - 1) st /\
    Forall (fun o => is_closed o = true) (orders st) /\
    match open_entry st with
    | None => order_list df qty tzname = Ok (orders st)
    | Some e =>
        order_list df qty tzname
        = Ok (orders st ++
              [mkOrder (oe_entry_dt e) (oe_entry_price e) (oe_qty e)
                       None None None None]) /\
        exists i out_row next_row dt st_i,
          (i + 1 < length df)%nat /\
          add_signal_prev df !! i = Some out_row /\
          df !! (i + 1)%nat = Some next_row /\
          signal_prev out_row = 0 /\ signal (sbar out_row) = Some 1 /\
          state_after df qty tzname i st_i /\ open_entry st_i = None /\
          _make_dt (date (bar next_row)) 9 15 tzname = Ok dt /\
          e = mkOpenEntry dt (open (bar next_row)) qty /\
          forall j, (i < j <= length df - 1)%nat ->
            exists st_j, state_after df qty tzname j st_j /\
                         open_entry st_j = Some e
    end.
Proof.
  exists (trace df qty tzname (length df - 1)).
  split; [by apply run_loop_trace|].
  split; [by apply orders_closed|].
  rewrite order_list_trace. unfold finish.
  destruct (open_entry (trace df qty tzname (length df - 1))) as [e|] eqn:Hopen;
    [|done].
  split; [done|].
  destruct (open_entry_provenance df qty tzname (length df - 1) e)
    as (i & Hi & (row & next_row & Hrow & Hnext & Hp & Hsig & Hnone & He) & Hheld);
    [lia|done|].
  exists i, (mkOutRow row (default 0 (prev_signal df i))), next_row,
    (fill_dt (date (bar next_row)) tzname), (trace df qty tzname i).
  split; [lia|].
  split; [by apply add_signal_prev_lookup|].
  split; [done|]. split; [done|]. split; [done|].
  split; [apply run_loop_trace; lia|].
  split; [done|]. split; [apply make_dt_fill|]. split; [done|].
  intros j Hj. exists (trace df qty tzname j).
  split; [apply run_loop_trace; lia|]. by apply Hheld.
Qed.

(** ** Holding duration *)

Lemma timedelta_days_same_time (a b : Timestamp) :
  ts_hour a = ts_hour b -> ts_minute a = ts_minute b ->
  ts_second a = ts_second b ->
  timedelta_days a b = date_ordinal a - date_ordinal b.
Proof.
  intros Hh Hm Hs. unfold timedelta_days, wall_seconds.
  rewrite Hh, Hm, Hs.
  replace (date_ordinal a * 86400 + ts_hour b * 3600 + ts_minute b * 60
           + ts_second b
           - (date_ordinal b * 86400 + ts_hour b * 3600 + ts_minute b * 60
              + ts_second b))
    with ((date_ordinal a - date_ordinal b) * 86400) by lia.
  by rewrite Z.div_mul.
Qed.

Lemma tz_strip_fill_dt (d : Timestamp) (tzname : string) :
  tz_strip (fill_dt d tzname) = naive_at d 9 15.
Proof.
  unfold fill_dt. by destruct (tz_localizable tzname (naive_at d 9 15)).
Qed.

Lemma date_ordinal_fill_dt (d : Timestamp) (tzname : string) :
  date_ordinal (fill_dt d tzname) = date_ordinal d.
Proof.
  unfold fill_dt. by destruct (tz_localizable tzname (naive_at d 9 15)).
Qed.

Lemma date_ordinal_tz_strip (t : Timestamp) :
  date_ordinal (tz_strip t) = date_ordinal t.
Proof. done. Qed.

Lemma bars_held_exit_on (ni nj : SignalBar) (qty : Z) (tzname : string) :
  bars_held (exit_on (entry_on ni qty tzname) nj tzname)
  = Some (date_ordinal (date (bar nj)) - date_ordinal (date (bar ni))).
Proof.
  unfold exit_on, entry_on. simpl. rewrite !tz_strip_fill_dt.
  by rewrite timedelta_days_same_time.
Qed.

(** C7. Every finalized record's holding duration is the day number
    of its exit date minus the day number of its entry date, both
    taken on the timestamps with the zone removed.  The record was
    entered on bar [i + 1] and exited on bar [j + 1], and the duration
    is the calendar distance of these two bars' dates, whatever
    [j - i] is: the Thursday-to-Friday trade and the Friday-to-Monday
    trade below span the same bars and last 1 and 3 days. *)
Theorem holding_duration_calendar_days :
  (forall (df : list SignalBar) (qty : Z) (tzname : string),
     exists os,
       order_list df qty tzname = Ok os /\
       forall o x, o ∈ os -> exit_dt o = Some x ->
         bars_held o
         = Some (date_ordinal (tz_strip x)
                 - date_ordinal (tz_strip (entry_dt o))) /\
         exists i j ni nj,
           (i < j)%nat /\ (j + 1 < length df)%nat /\
           df !! (i + 1)%nat = Some ni /\ df !! (j + 1)%nat = Some nj /\
           _make_dt (date (bar ni)) 9 15 tzname = Ok (entry_dt o) /\
           _make_dt (date (bar nj)) 9 15 tzname = Ok x /\
           bars_held o
           = Some (date_ordinal (date (bar nj))
                   - date_ordinal (date (bar ni))))
  /\ (forall tzname : string,
       map signal thu_fri = map signal fri_mon /\
       exists o1 o2,
         order_list thu_fri 1 tzname = Ok [o1] /\
         order_list fri_mon 1 tzname = Ok [o2] /\
         bars_held o1 = Some 1 /\ bars_held o2 = Some 3).
Proof.
  split.
  - intros df qty tzname. rewrite order_list_trace. eexists. split; [done|].
    intros o x Hin Hx.
    assert (Hin' : o ∈ orders (trace df qty tzname (length df - 1))).
    { unfold finish in Hin.
      destruct (open_entry (trace df qty tzname (length df - 1))) as [e|];
        [|done].
      apply elem_of_app in Hin as [Hin|Hin]; [done|].
      apply list_elem_of_singleton in Hin as ->. done. }
    destruct (orders_provenance df qty tzname (length df - 1) o)
      as (i & j & e & nj & Hij & (row & ni & _ & Hni & _ & _ & _ & ->) & Hnj & ->);
      [lia|done|].
    simpl in Hx. injection Hx as <-.
    rewrite bars_held_exit_on. split.
    + simpl. by rewrite !date_ordinal_tz_strip, !date_ordinal_fill_dt.
    + exists i, j, ni, nj. split; [lia|]. split; [lia|].
      split; [done|]. split; [done|].
      split; [apply make_dt_fill|]. split; [apply make_dt_fill|]. done.
  - intros tzname. split; [done|].
    rewrite !order_list_trace.
    eexists _, _. split; [reflexivity|]. split; [reflexivity|].
    split; apply bars_held_exit_on.
Qed.

End Run.

(** ** The signal generator *)

Lemma Qgtb_lt (a b : Q) : Qgtb a b = true <-> (b < a)%Q.
Proof.
  unfold Qgtb. rewrite negb_true_iff. split.
  - intros H. apply Qnot_le_lt. intros Hle.
    apply Qle_bool_iff in Hle. congruence.
  - intros H. destruct (Qle_bool a b) eqn:Hle; [|done].
    apply Qle_bool_iff in Hle. exfalso. by apply (Qlt_not_le b a).
Qed.

Lemma gt_cell_true (a b : option Q) :
  gt_cell a b = true
  <-> exists f s, a = Some f /\ b = Some s /\ (s < f)%Q.
Proof.
  destruct a as [f|], b as [s|]; simpl.
  - rewrite Qgtb_lt. split.
    + intros H. by exists f, s.
    + intros (f' & s' & [= <-] & [= <-] & H). done.
  - split; [done|]. intros (f' & s' & _ & ? & _). done.
  - split; [done|]. intros (f' & s' & ? & _). done.
  - split; [done|]. intros (f' & s' & ? & _). done.
Qed.

Lemma rolling_mean_at_None (w : Z) (xs : list Q) (i : nat) :
  0 < w -> (rolling_mean_at w xs i = None <-> Z.of_nat i + 1 < w).
Proof.
  intros Hw. unfold rolling_mean_at.
  destruct (Z.leb_spec w 0) as [?|_]; [lia|]. simpl.
  destruct (Z.ltb_spec (Z.of_nat i + 1) w); split; intros; (done || lia).
Qed.

(** A defined average is taken over exactly [w] closes. *)
Lemma rolling_mean_at_Some (w : Z) (xs : list Q) (i : nat) :
  0 < w -> w <= Z.of_nat i + 1 -> (i < length xs)%nat ->
  exists window,
    window = take (Z.to_nat w) (drop (i + 1 - Z.to_nat w) xs) /\
    length window = Z.to_nat w /\
    rolling_mean_at w xs i = Some (Qsum window / inject_Z w)%Q.
Proof.
  intros Hw Hi Hlen. eexists. split; [reflexivity|]. split.
  - rewrite length_take, length_drop. lia.
  - unfold rolling_mean_at.
    destruct (Z.leb_spec w 0) as [?|_]; [lia|]. simpl.
    destruct (Z.ltb_spec (Z.of_nat i + 1) w); [lia|done].
Qed.

Lemma rolling_mean_Ok (w : Z) (xs : list Q) :
  0 <= w ->
  rolling_mean w xs = Ok (map (rolling_mean_at w xs) (seq 0 (length xs))).
Proof.
  intros Hw. unfold rolling_mean.
  destruct (Z.ltb_spec w 0); [lia|done].
Qed.

Lemma compute_sma_signals_Ok (df : list Bar) (fast slow : Z) :
  0 <= fast -> 0 <= slow ->
  compute_sma_signals df fast slow
  = Ok (with_signal df
          (map (rolling_mean_at fast (map close df)) (seq 0 (length df)))
          (map (rolling_mean_at slow (map close df)) (seq 0 (length df)))).
Proof.
  intros Hf Hs. unfold compute_sma_signals.
  rewrite !rolling_mean_Ok by done. simpl. by rewrite length_map.
Qed.

Lemma with_signal_length (df : list Bar) (f s : nat -> option Q) :
  length (with_signal df (map f (seq 0 (length df)))
                         (map s (seq 0 (length df))))
  = length df.
Proof.
  unfold with_signal.
  rewrite length_zip_with, length_zip_with, !length_map, !length_seq. lia.
Qed.

Lemma with_signal_lookup (df : list Bar) (f s : nat -> option Q) (i : nat)
  (r : SignalBar) :
  with_signal df (map f (seq 0 (length df))) (map s (seq 0 (length df))) !! i
  = Some r ->
  exists b, df !! i = Some b /\
    r = mkSignalBar b (f i) (s i) (Some (astype_int (gt_cell (f i) (s i)))).
Proof.
  unfold with_signal. intros H.
  apply lookup_zip_with_Some in H as (b & fs & -> & Hb & Hfs).
  apply lookup_zip_with_Some in Hfs as (x & y & -> & Hx & Hy).
  rewrite list_lookup_fmap in Hx, Hy.
  assert (Hi : (i < length df)%nat) by (eapply lookup_lt_Some; eauto).
  rewrite lookup_seq_lt in Hx, Hy by done. simpl in Hx, Hy.
  injection Hx as <-. injection Hy as <-.
  by exists b.
Qed.

(** C4. For positive windows [compute_sma_signals] returns a frame
    of the same length whose row [i] carries bar [i], the two rolling
    means of the closes, and a signal that is 1 exactly when both
    means are defined and the fast one is strictly greater; the signal
    is 0 otherwise, in particular when a mean is undefined, which is on
    the first [window - 1] rows exactly, and when the means are equal. *)
Theorem signal_iff_fast_above_slow (df : list Bar) (fast slow : Z) :
  0 < fast -> 0 < slow ->
  exists out,
    compute_sma_signals df fast slow = Ok out /\
    length out = length df /\
    forall i r, out !! i = Some r ->
      df !! i = Some (bar r) /\
      sma_fast r = rolling_mean_at fast (map close df) i /\
      sma_slow r = rolling_mean_at slow (map close df) i /\
      (sma_fast r = None <-> Z.of_nat i < fast - 1) /\
      (sma_slow r = None <-> Z.of_nat i < slow - 1) /\
      (signal r = Some 1
       <-> exists f s, sma_fast r = Some f /\ sma_slow r = Some s /\
                       (s < f)%Q) /\
      (signal r <> Some 1 -> signal r = Some 0) /\
      (sma_fast r = None \/ sma_slow r = None -> signal r = Some 0) /\
      (forall f s, sma_fast r = Some f -> sma_slow r = Some s ->
                   (f == s)%Q -> signal r = Some 0).
Proof.
  intros Hf Hs. eexists. split; [apply compute_sma_signals_Ok; lia|].
  split; [apply with_signal_length|].
  intros i r Hr. apply with_signal_lookup in Hr as (b & Hb & ->). simpl.
  split; [done|]. split; [done|]. split; [done|].
  split; [rewrite rolling_mean_at_None by done; lia|].
  split; [rewrite rolling_mean_at_None by done; lia|].
  set (f := rolling_mean_at fast (map close df) i).
  set (s := rolling_mean_at slow (map close df) i).
  assert (Hiff : Some (astype_int (gt_cell f s)) = Some 1
                 <-> exists x y, f = Some x /\ s = Some y /\ (y < x)%Q).
  { rewrite <- gt_cell_true. destruct (gt_cell f s); simpl; split; congruence. }
  split; [done|].
  split; [destruct (gt_cell f s); simpl; congruence|].
  split.
  - intros [Hn|Hn]; rewrite Hn; [done|]. by destruct f.
  - intros x y -> -> Heq. simpl.
    destruct (Qgtb x y) eqn:Hgt; [|done].
    apply Qgtb_lt in Hgt. rewrite Heq in Hgt.
    exfalso. by apply (Qlt_irrefl y).
Qed.

Section Ledger.

Context `{tzdb : TzDatabase}.

(** ** The timestamp helper *)


(** ** Degenerate data *)

Lemma step_flat (p : Z) (row next_row : SignalBar) (qty : Z) (tzname : string)
  (st : State) :
  signal row <> Some 1 -> open_entry st = None ->
  step p row next_row qty tzname st = st.
Proof.
  intros Hsig Hnone.
  destruct (step_cases p row next_row qty tzname st)
    as [(_ & Hs & _)|[(_ & _ & e & He & _)|(Hst & _)]]; [done|congruence|done].
Qed.

Lemma trace_flat (df : list SignalBar) (qty : Z) (tzname : string) (k : nat) :
  (forall r, r ∈ df -> signal r = Some 0) ->
  trace df qty tzname k = init_state.
Proof.
  intros Hflat. induction k as [|k IH]; [done|]. simpl. rewrite IH.
  destruct (df !! k) as [row|] eqn:Hrow; [|done].
  destruct (df !! (k + 1)%nat) as [next_row|]; [|done].
  apply step_flat; [|done].
  rewrite (Hflat row) by (eapply list_elem_of_lookup_2; eauto). done.
Qed.

(** C9. With fewer bars than the slow window every signal is 0; and on
    a frame whose signals are all 0, [generate_orders] returns, without
    raising, the frame that has the ledger columns and no row. *)
Theorem degenerate_data_no_trades :
  (forall (df : list Bar) (fast slow : Z),
     0 < fast -> Z.of_nat (length df) < slow ->
     exists out,
       compute_sma_signals df fast slow = Ok out /\
       length out = length df /\
       forall r, r ∈ out -> signal r = Some 0)
  /\ (forall (df : list SignalBar) (qty : Z) (tzname : string),
       (forall r, r ∈ df -> signal r = Some 0) ->
       order_list df qty tzname = Ok [] /\
       generate_orders df qty tzname
       = Ok (map (fun c => (c, [])) OUTPUT_COLS)).
Proof.
  split.
  - intros df fast slow Hf Hlen.
    eexists. split; [apply compute_sma_signals_Ok; lia|].
    split; [apply with_signal_length|].
    intros r Hr. apply list_elem_of_lookup in Hr as [i Hr].
    apply with_signal_lookup in Hr as (b & Hb & ->). simpl.
    apply lookup_lt_Some in Hb.
    assert (Hnone : rolling_mean_at slow (map close df) i = None).
    { apply rolling_mean_at_None; lia. }
    rewrite Hnone. by destruct (rolling_mean_at fast (map close df) i).
  - intros df qty tzname Hflat.
    assert (Hlist : order_list df qty tzname = Ok []).
    { by rewrite order_list_trace, trace_flat. }
    split; [done|]. unfold generate_orders. rewrite Hlist. done.
Qed.

(** ** The returned frame *)

Lemma mapM_to_datetime_cell (ds : list (option Timestamp)) :
  mapM to_datetime_cell (map (blank_or CTs) ds) = Ok ds.
Proof.
  induction ds as [|d ds IH]; [done|]. simpl. rewrite IH.
  by destruct d.
Qed.

Lemma to_datetime_dt (ds : list (option Timestamp)) :
  to_datetime (map (blank_or CTs) ds)
  = if same_zone (zones ds) then Ok ds else Raise ValueError.
Proof. unfold to_datetime. by rewrite mapM_to_datetime_cell. Qed.

Lemma forallb_tz_zones (tzname : string) (ds : list (option Timestamp)) :
  forallb (cell_has_tz tzname) (map (blank_or CTs) ds) = true ->
  Forall (fun z => z = Some tzname) (zones ds).
Proof.
  induction ds as [|d ds IH]; simpl; [constructor|].
  intros H. apply andb_prop in H as [Hd Hds].
  destruct d as [t|]; simpl in *; [|done].
  apply bool_decide_eq_true_1 in Hd.
  unfold zones. simpl. constructor; [done|]. by apply IH.
Qed.

Lemma same_zone_const (z : option string) (zs : list (option string)) :
  Forall (fun z' => z' = z) zs -> same_zone zs = true.
Proof.
  intros H. destruct H as [|z0 zs -> Hzs]; [done|]. simpl.
  apply forallb_forall. intros z' Hin.
  apply bool_decide_eq_true_2.
  rewrite Forall_forall in Hzs. apply Hzs. by apply list_elem_of_In.
Qed.

Lemma dtype_same_zone (tzname : string) (ds : list (option Timestamp)) :
  dtype_is_datetime_tz tzname (map (blank_or CTs) ds) = true ->
  same_zone (zones ds) = true.
Proof.
  intros H. apply (same_zone_const (Some tzname)), forallb_tz_zones.
  destruct ds; [done|exact H].
Qed.

Lemma strftime_cell_tz_strip (ds : list (option Timestamp)) :
  map strftime_cell (map (fmap tz_strip) ds) = map strftime_cell ds.
Proof.
  rewrite map_map. apply map_ext. by intros [t|].
Qed.

Lemma format_column_dt (df : DataFrame) (c : string)
  (ds : list (option Timestamp)) :
  df_get c df = Some (map (blank_or CTs) ds) ->
  format_column df c
  = Ok (if same_zone (zones ds) then df_set c (map strftime_cell ds) df
        else df).
Proof.
  intros Hget. unfold format_column. rewrite Hget.
  destruct (dtype_is_datetime_tz "Asia/Kolkata" (map (blank_or CTs) ds))
    eqn:Hdtype.
  - rewrite to_datetime_dt, (dtype_same_zone _ _ Hdtype). simpl.
    by rewrite strftime_cell_tz_strip.
  - rewrite to_datetime_dt. by destruct (same_zone (zones ds)).
Qed.

Lemma pd_DataFrame_orders (os : list Order) :
  pd_DataFrame os OUTPUT_COLS
  = [("entry_dt"%string, map (blank_or CTs) (map (fun o => Some (entry_dt o)) os));
     ("entry_price"%string, map (fun o => CFloat (entry_price o)) os);
     ("qty"%string, map (fun o => CInt (order_qty o)) os);
     ("exit_dt"%string, map (blank_or CTs) (map exit_dt os));
     ("exit_price"%string, map (fun o => blank_or CFloat (exit_price o)) os);
     ("pnl"%string, map (fun o => blank_or CFloat (pnl o)) os);
     ("bars_held"%string, map (fun o => blank_or CInt (bars_held o)) os)].
Proof.
  unfold pd_DataFrame, OUTPUT_COLS. simpl. by rewrite !map_map.
Qed.

(** The frame [generate_orders] returns, for every input. *)
Lemma generate_orders_frame (df : list SignalBar) (qty : Z) (tzname : string)
  (os : list Order) :
  order_list df qty tzname = Ok os ->
  generate_orders df qty tzname = Ok (ledger_frame os).
Proof.
  intros Hos. unfold generate_orders. rewrite Hos.
  unfold mbind, result_bind. cbv zeta. rewrite pd_DataFrame_orders.
  cbn [foldM]. unfold mbind, result_bind.
  rewrite (format_column_dt _ "entry_dt" (map (fun o => Some (entry_dt o)) os))
    by done.
  unfold ledger_frame, render_dt_column.
  destruct (same_zone (zones (map (fun o => Some (entry_dt o)) os))); simpl.
  - rewrite (format_column_dt _ "exit_dt" (map exit_dt os)) by done.
    by destruct (same_zone (zones (map exit_dt os))).
  - rewrite (format_column_dt _ "exit_dt" (map exit_dt os)) by done.
    by destruct (same_zone (zones (map exit_dt os))).
Qed.

(** *** The scenario of six bars *)

(** C6. On six bars with closes 10, 10, 10, 12, 12, 8 and windows 2
    and 3 the signal column is 0 0 0 1 1 0, so it first is 1 at index
    3; the only position is opened at bar 4's open, the 1-to-0 step at
    bar 5 has no next bar, and the ledger is one record whose exit
    timestamp, exit price, P&L and holding duration are blank. *)
Theorem six_bar_scenario (df : list Bar) (qty : Z) (tzname : string) :
  map close df = [10; 10; 10; 12; 12; 8]%Q ->
  exists out b4 dt,
    compute_sma_signals df 2 3 = Ok out /\
    map signal out = [Some 0; Some 0; Some 0; Some 1; Some 1; Some 0] /\
    df !! 4%nat = Some b4 /\
    _make_dt (date b4) 9 15 tzname = Ok dt /\
    order_list out qty tzname
    = Ok [mkOrder dt (open b4) qty None None None None] /\
    generate_orders out qty tzname
    = Ok [("entry_dt"%string, [CStr (strftime dt)]);
          ("entry_price"%string, [CFloat (open b4)]);
          ("qty"%string, [CInt qty]);
          ("exit_dt"%string, [CNaN]);
          ("exit_price"%string, [CStr ""]);
          ("pnl"%string, [CStr ""]);
          ("bars_held"%string, [CStr ""])].
Proof.
  intros Hc.
  destruct df as [|b0 [|b1 [|b2 [|b3 [|b4 [|b5 [|b6 df]]]]]]];
    try discriminate Hc.
  simpl in Hc. injection Hc as H0 H1 H2 H3 H4 H5.
  rewrite compute_sma_signals_Ok by lia.
  simpl map. rewrite H0, H1, H2, H3, H4, H5.
  eexists _, b4, (fill_dt (date b4) tzname).
  split; [reflexivity|].
  split; [vm_compute; reflexivity|].
  split; [reflexivity|].
  split; [apply make_dt_fill|].
  assert (Hlist : order_list
            (with_signal [b0; b1; b2; b3; b4; b5]
               (map (rolling_mean_at 2 [10; 10; 10; 12; 12; 8]%Q) (seq 0 6))
               (map (rolling_mean_at 3 [10; 10; 10; 12; 12; 8]%Q) (seq 0 6)))
            qty tzname
          = Ok [mkOrder (fill_dt (date b4) tzname) (open b4) qty
                        None None None None]).
  { rewrite order_list_trace. vm_compute. reflexivity. }
  split; [exact Hlist|].
  exact (generate_orders_frame _ _ _ _ Hlist).
Qed.

(** *** The width of a formatted timestamp *)







(** *** The records of the ledger *)

Lemma entered_at_fill (df : list SignalBar) (qty : Z) (tzname : string)
  (i : nat) (e : OpenEntry) :
  entered_at df qty tzname i e ->
  exists ni, ni ∈ df /\ e = entry_on ni qty tzname.
Proof.
  intros (row & ni & _ & Hni & _ & _ & _ & ->).
  exists ni. split; [|done]. eapply list_elem_of_lookup_2; eauto.
Qed.

(** Every record is entered on a bar of the frame, and is either open
    with its four exit fields blank or exited on a bar of the frame
    with its four exit fields set. *)
Lemma order_list_records (df : list SignalBar) (qty : Z) (tzname : string) :
  exists os,
    order_list df qty tzname = Ok os /\
    forall o, o ∈ os ->
      exists ni, ni ∈ df /\
        entry_dt o = fill_dt (date (bar ni)) tzname /\
        ((exit_dt o = None /\ exit_price o = None /\ pnl o = None /\
          bars_held o = None)
         \/ exists nj p g h, nj ∈ df /\
              exit_dt o = Some (fill_dt (date (bar nj)) tzname) /\
              exit_price o = Some p /\ pnl o = Some g /\
              bars_held o = Some h).
Proof.
  rewrite order_list_trace. eexists. split; [done|].
  intros o Hin.
  set (k := (length df - 1)%nat) in *.
  assert (Hclosed : o ∈ orders (trace df qty tzname k) ->
    exists ni, ni ∈ df /\
      entry_dt o = fill_dt (date (bar ni)) tzname /\
      ((exit_dt o = None /\ exit_price o = None /\ pnl o = None /\
        bars_held o = None)
       \/ exists nj p g h, nj ∈ df /\
            exit_dt o = Some (fill_dt (date (bar nj)) tzname) /\
            exit_price o = Some p /\ pnl o = Some g /\
            bars_held o = Some h)).
  { intros Ho.
    destruct (orders_provenance df qty tzname k o) as
      (i & j & e & nj & _ & Hent & Hnj & ->); [lia|done|].
    apply entered_at_fill in Hent as (ni & Hni & ->).
    exists ni. split; [done|]. split; [done|]. right.
    eexists nj, _, _, _. split; [eapply list_elem_of_lookup_2; eauto|].
    done. }
  unfold finish in Hin.
  destruct (open_entry (trace df qty tzname k)) as [e|] eqn:Hopen;
    [|by apply Hclosed].
  apply elem_of_app in Hin as [Hin|Hin]; [by apply Hclosed|].
  apply list_elem_of_singleton in Hin as ->.
  destruct (open_entry_provenance df qty tzname k e) as (i & _ & Hent & _);
    [lia|done|].
  apply entered_at_fill in Hent as (ni & Hni & ->).
  exists ni. split; [done|]. split; [done|]. by left.
Qed.

Lemma ts_tz_fill_dt (d : Timestamp) (tzname : string) :
  ts_tz (fill_dt d tzname)
  = if tz_localizable tzname (naive_at d 9 15) then Some tzname else None.
Proof.
  unfold fill_dt. by destruct (tz_localizable tzname (naive_at d 9 15)).
Qed.

Lemma zones_cons_Some (t : Timestamp) (ds : list (option Timestamp)) :
  zones (Some t :: ds) = ts_tz t :: zones ds.
Proof. done. Qed.

Lemma zones_cons_None (ds : list (option Timestamp)) :
  zones (None :: ds) = zones ds.
Proof. done. Qed.


Lemma zones_entry_const (z : option string) (os : list Order) :
  Forall (fun o => ts_tz (entry_dt o) = z) os ->
  Forall (fun z' => z' = z) (zones (map (fun o => Some (entry_dt o)) os)).
Proof.
  induction 1 as [|o os Ho _ IH]; [constructor|]. cbn [map].
  rewrite zones_cons_Some. by constructor.
Qed.

Lemma zones_exit_const (z : option string) (os : list Order) :
  Forall (fun o => forall x, exit_dt o = Some x -> ts_tz x = z) os ->
  Forall (fun z' => z' = z) (zones (map exit_dt os)).
Proof.
  induction 1 as [|o os Ho _ IH]; [constructor|]. cbn [map].
  destruct (exit_dt o) as [x|].
  - rewrite zones_cons_Some. constructor; [by apply Ho|done].
  - by rewrite zones_cons_None.
Qed.

(** ** The layout of the ledger *)


End Ledger.

(** ** The model on sample data *)

Example days_from_civil_epoch : days_from_civil 1970 1 1 = 0.
Proof. reflexivity. Qed.

Example days_from_civil_leap_day :
  days_from_civil 2024 3 1 - days_from_civil 2024 2 28 = 2.
Proof. reflexivity. Qed.

Example strftime_sample :
  strftime (mkTimestamp 2024 1 5 9 15 0 (Some "Asia/Kolkata"%string))
  = "2024-01-05 09:15:00"%string.
Proof. reflexivity. Qed.

Example six_bars_means :
  (rolling_mean 2 (map close six_bars), rolling_mean 3 (map close six_bars))
  = (Ok [None; Some (20 # 2); Some (20 # 2); Some (22 # 2); Some (24 # 2);
         Some (20 # 2)],
     Ok [None; None; Some (30 # 3); Some (32 # 3); Some (34 # 3);
         Some (32 # 3)])%Q.
Proof. reflexivity. Qed.

Example six_bars_ledger :
  (out ← compute_sma_signals six_bars 2 3;
   @generate_orders sample_tzdb out 5 "Asia/Kolkata")
  = Ok [("entry_dt"%string, [CStr "2024-01-05 09:15:00"]);
        ("entry_price"%string, [CFloat 105]);
        ("qty"%string, [CInt 5]);
        ("exit_dt"%string, [CNaN]);
        ("exit_price"%string, [CStr ""]);
        ("pnl"%string, [CStr ""]);
        ("bars_held"%string, [CStr ""])].
Proof. reflexivity. Qed.

Example hold_bars_ledger :
  @generate_orders sample_tzdb hold_bars 5 "UTC"
  = Ok [("entry_dt"%string, [CStr "2024-01-03 09:15:00"]);
        ("entry_price"%string, [CFloat 12]);
        ("qty"%string, [CInt 5]);
        ("exit_dt"%string, [CStr "2024-01-05 09:15:00"]);
        ("exit_price"%string, [CFloat 14]);
        ("pnl"%string, [CFloat ((14 - 12) * 5)]);
        ("bars_held"%string, [CInt 2])].
Proof. reflexivity. Qed.

Example step_while_flat_no_exit :
  @order_list sample_tzdb step_while_flat 5 "UTC" = Ok [].
Proof. reflexivity. Qed.

Example step_while_holding_one_record :
  length <$> (match @order_list sample_tzdb step_while_holding 5 "UTC" with
              | Ok os => Some os
              | Raise _ => None
              end)
  = Some 1%nat.
Proof. reflexivity. Qed.

Example unknown_zone_is_naive :
  @_make_dt sample_tzdb (day 2024 1 5) 9 15 "Mars/Olympus"
  = Ok (mkTimestamp 2024 1 5 9 15 0 None).
Proof. reflexivity. Qed.

Example strftime_pads_year :
  strftime (mkTimestamp 999 1 2 9 15 0 None) = "0999-01-02 09:15:00"%string.
Proof. reflexivity. Qed.

(** ** Instances *)

(** The entry transition on [hold_bars], at iteration 1: a position
    is opened at bar 2's open, 12, stamped 09:15 on bar 2's date. *)
Lemma entry_transition_witness :
  signal_complete hold_bars = true /\ (1 + 1 < length hold_bars)%nat /\
  exists st',
    @state_after sample_tzdb hold_bars 5 "Asia/Kolkata" 2 st' /\
    st' = mkState
            (Some (mkOpenEntry
                     (mkTimestamp 2024 1 3 9 15 0 (Some "Asia/Kolkata"%string))
                     12 5))
            [].
Proof.
  split; [reflexivity|]. split; [simpl; lia|].
  destruct (proj1 (@entry_transition sample_tzdb hold_bars 5 "Asia/Kolkata"
                     eq_refl) 1%nat ltac:(simpl; lia))
    as (st & st' & row & next_row & Hrow & Hnext & Hst & Hst' & _ & Hentry & _).
  simpl in Hrow, Hnext. injection Hrow as <-. injection Hnext as <-.
  unfold state_after in Hst. vm_compute in Hst. injection Hst as <-.
  destruct (Hentry eq_refl eq_refl eq_refl) as (dt & Hdt & Heq).
  vm_compute in Hdt. injection Hdt as <-.
  exists st'. split; [exact Hst'|exact Heq].
Defined.

(** The exit transition on [hold_bars], at iteration 3: the position
    opened at 12 is closed at 14 with P&L (14 - 12) * 5. *)
Lemma exit_transition_witness :
  (3 + 1 < length hold_bars)%nat /\
  exists st' o,
    @state_after sample_tzdb hold_bars 5 "Asia/Kolkata" 4 st' /\
    open_entry st' = None /\ orders st' = [o] /\
    exit_price o = Some 14%Q /\ pnl o = Some ((14 - 12) * inject_Z 5)%Q.
Proof.
  split; [simpl; lia|].
  destruct (@exit_transition sample_tzdb hold_bars 5 "Asia/Kolkata" 3
              ltac:(simpl; lia))
    as (st & st' & row & next_row & Hrow & Hnext & Hst & Hst' & Hexit).
  simpl in Hrow, Hnext. injection Hrow as <-. injection Hnext as <-.
  unfold state_after in Hst. vm_compute in Hst. injection Hst as <-.
  destruct (Hexit _ eq_refl eq_refl eq_refl)
    as (exit_ts & o & _ & Hnone & Hord & He & Hp & Hq & _ & Hx & Hpnl & _).
  exists st', o. split; [exact Hst'|]. split; [exact Hnone|].
  split; [exact Hord|]. split; [exact Hx|].
  rewrite Hpnl, Hp, Hq. reflexivity.
Defined.

(** The invariant on [step_while_holding] after three iterations: one
    position is held, and iteration 3, which meets a 0-to-1 step,
    leaves the state as it is. *)
Lemma at_most_one_position_witness :
  (3 <= length step_while_holding - 1)%nat /\
  exists st,
    @state_after sample_tzdb step_while_holding 5 "Asia/Kolkata" 3 st /\
    is_Some (open_entry st) /\ (open_positions st <= 1)%nat /\
    @state_after sample_tzdb step_while_holding 5 "Asia/Kolkata" 4 st.
Proof.
  split; [simpl; lia|].
  destruct (@at_most_one_position sample_tzdb step_while_holding 5
              "Asia/Kolkata" 3 ltac:(simpl; lia))
    as (st & Hst & Hone & _ & Hnext).
  destruct (Hnext ltac:(simpl; lia))
    as (row & st' & Hrow & Hst' & Hhold & _).
  simpl in Hrow. injection Hrow as <-.
  assert (Hopen : is_Some (open_entry st)).
  { unfold state_after in Hst. vm_compute in Hst. injection Hst as <-.
    eexists. reflexivity. }
  exists st. split; [exact Hst|]. split; [exact Hopen|].
  split; [exact Hone|].
  rewrite <- (Hhold eq_refl eq_refl Hopen). exact Hst'.
Defined.

(** The signal generator on [six_bars] with windows 2 and 3: at row 3
    the fast mean 22/2 is above the slow mean 32/3, so the signal is 1. *)
Lemma signal_iff_fast_above_slow_witness :
  0 < 2 /\ 0 < 3 /\
  exists out r,
    compute_sma_signals six_bars 2 3 = Ok out /\
    out !! 3%nat = Some r /\
    sma_fast r = Some (22 # 2)%Q /\ sma_slow r = Some (32 # 3)%Q /\
    signal r = Some 1.
Proof.
  split; [reflexivity|]. split; [reflexivity|].
  destruct (signal_iff_fast_above_slow six_bars 2 3 eq_refl eq_refl)
    as (out & Hout & _ & Hrows).
  pose proof Hout as Hout'. vm_compute in Hout'. injection Hout' as <-.
  eexists _, _. split; [exact Hout|]. split; [reflexivity|].
  split; [reflexivity|]. split; [reflexivity|].
  destruct (Hrows 3%nat _ eq_refl) as (_ & _ & _ & _ & _ & Hiff & _).
  apply Hiff. exists (22 # 2)%Q, (32 # 3)%Q.
  split; [reflexivity|]. split; [reflexivity|]. reflexivity.
Defined.

(** The scenario on [six_bars]: one row, entered at bar 4's open. *)
Lemma six_bar_scenario_witness :
  map close six_bars = [10; 10; 10; 12; 12; 8]%Q /\
  exists out,
    compute_sma_signals six_bars 2 3 = Ok out /\
    @generate_orders sample_tzdb out 5 "Asia/Kolkata"
    = Ok [("entry_dt"%string, [CStr "2024-01-05 09:15:00"]);
          ("entry_price"%string, [CFloat 105]);
          ("qty"%string, [CInt 5]);
          ("exit_dt"%string, [CNaN]);
          ("exit_price"%string, [CStr ""]);
          ("pnl"%string, [CStr ""]);
          ("bars_held"%string, [CStr ""])].
Proof.
  split; [reflexivity|].
  destruct (@six_bar_scenario sample_tzdb six_bars 5 "Asia/Kolkata" eq_refl)
    as (out & b4 & dt & Hout & _ & Hb4 & Hdt & _ & Hframe).
  simpl in Hb4. injection Hb4 as <-.
  vm_compute in Hdt. injection Hdt as <-.
  exists out. split; [exact Hout|exact Hframe].
Defined.

(** Two bars against a slow window of 3, and a frame of three bars
    whose signals are all 0. *)
Lemma degenerate_data_no_trades_witness :
  (0 < 2 /\ Z.of_nat (length (take 2 six_bars)) < 3 /\
   exists out,
     compute_sma_signals (take 2 six_bars) 2 3 = Ok out /\
     length out = length (take 2 six_bars) /\
     forall r, r ∈ out -> signal r = Some 0)
  /\ @generate_orders sample_tzdb
       [sbar_of (day 2024 1 1) 10 0; sbar_of (day 2024 1 2) 11 0;
        sbar_of (day 2024 1 3) 12 0] 5 "Asia/Kolkata"
     = Ok (map (fun c => (c, [])) OUTPUT_COLS).
Proof.
  split.
  - split; [reflexivity|]. split; [reflexivity|].
    exact (proj1 (@degenerate_data_no_trades sample_tzdb)
             (take 2 six_bars) 2 3 eq_refl eq_refl).
  - apply (proj2 (@degenerate_data_no_trades sample_tzdb)).
    intros r Hr. repeat (apply elem_of_cons in Hr as [->|Hr]; [reflexivity|]).
    by apply elem_of_nil in Hr.
Defined.





(** * Further properties of the order simulator *)

Section Simulation.

Context `{tzdb : TzDatabase}.

Lemma binary_signals_lookup (df : list SignalBar) (i : nat) (r : SignalBar) :
  binary_signals df = true -> df !! i = Some r ->
  signal r = Some 0 \/ signal r = Some 1.
Proof.
  intros Hb Hr. unfold binary_signals in Hb. rewrite forallb_forall in Hb.
  assert (Hin : In r df).
  { apply list_elem_of_In. eapply list_elem_of_lookup_2; eauto. }
  apply Hb in Hin. destruct (signal r) as [s|]; [|done].
  apply orb_prop in Hin as [H|H]; apply Z.eqb_eq in H; subst; auto.
Qed.

Lemma binary_prev_signal (df : list SignalBar) (k : nat) :
  binary_signals df = true -> (k <= length df)%nat ->
  prev_signal df k = Some 0 \/ prev_signal df k = Some 1.
Proof.
  intros Hb Hk. destruct k as [|j]; [by left|]. simpl.
  destruct (lookup_lt_is_Some_2 df j) as [r Hr]; [lia|].
  rewrite Hr. simpl. by eapply binary_signals_lookup.
Qed.

(** On 0/1 signals the position follows the signal. *)
Lemma trace_mirrors_signal (df : list SignalBar) (qty : Z) (tzname : string)
  (k : nat) :
  binary_signals df = true -> (k <= length df - 1)%nat ->
  (is_Some (open_entry (trace df qty tzname k)) <-> prev_signal df k = Some 1).
Proof.
  intros Hb. induction k as [|k IH]; intros Hk.
  - simpl. split; [intros [? ?]; done|done].
  - destruct (trace_S df qty tzname k) as (row & next_row & Hrow & Hnext & HS);
      [lia|].
    assert (Hprev : prev_signal df (S k) = signal row).
    { simpl. by rewrite Hrow. }
    rewrite Hprev, HS.
    specialize (IH ltac:(lia)).
    destruct (step_cases (default 0 (prev_signal df k)) row next_row qty
                tzname (trace df qty tzname k))
      as [(_ & Hsig & _ & Hst)|[(_ & Hsig & e & _ & Hst)|(Hst & Hn1 & Hn2)]];
      rewrite Hst.
    + simpl. split; [done|]. intros _. by eexists.
    + simpl. rewrite Hsig. split; [intros [? ?]; done|done].
    + destruct (binary_prev_signal df k Hb ltac:(lia)) as [Hp|Hp];
        destruct (binary_signals_lookup df k row Hb Hrow) as [Hs|Hs];
        rewrite Hp in *; rewrite Hs in *; simpl in *.
      * split; [|done]. intros Hopen. by apply IH.
      * exfalso. apply Hn1. split; [done|]. split; [done|].
        destruct (open_entry (trace df qty tzname k)) eqn:E; [|done].
        assert (Some 0 = Some 1) by (apply IH; by eexists). done.
      * exfalso. apply Hn2. split; [done|]. split; [done|]. by apply IH.
      * split; [done|]. intros _. by apply IH.
Qed.

Lemma closed_not_open (o : Order) : is_closed o = true -> is_open o = false.
Proof.
  unfold is_closed, is_open. destruct (exit_dt o); simpl; [done|].
  intros H. done.
Qed.

(** X1. On a frame whose signals are all 0 or 1, the simulator holds a
    position after the iteration on row [idx] exactly when the signal
    of that row is 1; so the ledger ends with an open record exactly
    when the frame has two rows or more and the signal of its
    second-to-last row is 1. *)
Theorem position_follows_signal (df : list SignalBar) (qty : Z)
  (tzname : string) :
  binary_signals df = true ->
  (forall idx, (idx + 1 < length df)%nat ->
     exists st row,
       state_after df qty tzname (S idx) st /\ df !! idx = Some row /\
       (is_Some (open_entry st) <-> signal row = Some 1))
  /\ exists os,
       order_list df qty tzname = Ok os /\
       ((exists o, last os = Some o /\ is_open o = true)
        <-> (exists row, (2 <= length df)%nat /\
                         df !! (length df - 2)%nat = Some row /\
                         signal row = Some 1)).
Proof.
  intros Hb. split.
  - intros idx Hidx.
    destruct (lookup_lt_is_Some_2 df idx) as [row Hrow]; [lia|].
    exists (trace df qty tzname (S idx)), row.
    split; [apply run_loop_trace; lia|]. split; [done|].
    rewrite (trace_mirrors_signal df qty tzname (S idx) Hb) by lia.
    simpl. by rewrite Hrow.
  - rewrite order_list_trace. eexists. split; [done|].
    pose proof (trace_mirrors_signal df qty tzname (length df - 1) Hb
                  ltac:(lia)) as Hm.
    pose proof (orders_closed df qty tzname (length df - 1) ltac:(lia))
      as Hclosed.
    unfold finish.
    destruct (open_entry (trace df qty tzname (length df - 1))) as [e|] eqn:E.
    + split.
      * intros _. assert (Hp : prev_signal df (length df - 1) = Some 1).
        { apply Hm. by eexists. }
        destruct (length df - 1)%nat as [|j] eqn:Hn; [done|].
        simpl in Hp. destruct (df !! j) as [row|] eqn:Hrow; [|done].
        exists row. split; [lia|].
        replace (length df - 2)%nat with j by lia. done.
      * intros _. exists (open_order e). by rewrite last_snoc.
    + split.
      * intros (o & Ho & Hopen). exfalso.
        apply last_Some in Ho as (l' & Hl').
        rewrite Forall_forall in Hclosed.
        assert (Hc : is_closed o = true).
        { apply Hclosed. rewrite Hl'. apply elem_of_app. right.
          apply list_elem_of_singleton. done. }
        apply closed_not_open in Hc. congruence.
      * intros (row & Hn & Hrow & Hsig). exfalso.
        assert (Hp : prev_signal df (length df - 1) = Some 1).
        { destruct (length df - 1)%nat as [|j] eqn:Hj; [lia|]. simpl.
          replace j with (length df - 2)%nat by lia. by rewrite Hrow. }
        apply Hm in Hp as [? ?]. done.
Qed.

Lemma entry_steps_S (df : list SignalBar) (k : nat) (row : SignalBar) :
  df !! k = Some row ->
  filter (fun r => (signal_prev r =? 0) && signal_is r 1 = true)
         (take (S k) (add_signal_prev df))
  = filter (fun r => (signal_prev r =? 0) && signal_is r 1 = true)
           (take k (add_signal_prev df))
    ++ (if (default 0 (prev_signal df k) =? 0)
           && bool_decide (signal row = Some 1)
        then [mkOutRow row (default 0 (prev_signal df k))] else []).
Proof.
  intros Hrow.
  rewrite (take_S_r _ _ _ (add_signal_prev_lookup df k row Hrow)).
  rewrite filter_app. f_equal.
  rewrite <- (signal_is_decide row (default 0 (prev_signal df k)) 1).
  destruct ((default 0 (prev_signal df k) =? 0)
            && signal_is (mkOutRow row (default 0 (prev_signal df k))) 1)
    eqn:E.
  - by rewrite filter_cons_True by done.
  - rewrite filter_cons_False; [done|]. simpl. congruence.
Qed.

(** The records written and the position held never outnumber the
    0-to-1 steps met, and match them on 0/1 signals. *)
Lemma trace_count (df : list SignalBar) (qty : Z) (tzname : string) (k : nat) :
  (k <= length df - 1)%nat ->
  let met := length (filter (fun r => (signal_prev r =? 0)
                                      && signal_is r 1 = true)
                            (take k (add_signal_prev df))) in
  let held := match open_entry (trace df qty tzname k) with
              | Some _ => 1%nat
              | None => 0%nat
              end in
  (length (orders (trace df qty tzname k)) + held <= met)%nat /\
  (binary_signals df = true ->
   (length (orders (trace df qty tzname k)) + held = met)%nat).
Proof.
  induction k as [|k IH]; intros Hk; [simpl; split; [lia|done]|].
  destruct (trace_S df qty tzname k) as (row & next_row & Hrow & Hnext & HS);
    [lia|].
  specialize (IH ltac:(lia)). cbv zeta in *. destruct IH as [IHle IHeq].
  rewrite (entry_steps_S df k row Hrow), length_app, HS.
  destruct (step_cases (default 0 (prev_signal df k)) row next_row qty
              tzname (trace df qty tzname k))
    as [(Hp & Hsig & Hnone & Hst)|[(Hp & Hsig & e & He & Hst)|(Hst & Hn1 & _)]];
    rewrite Hst.
  - rewrite Hp, Hsig, Hnone in *. simpl in *. split; [lia|].
    intros Hb. specialize (IHeq Hb). lia.
  - rewrite Hp, He in *. simpl in *. rewrite length_app. simpl.
    split; [lia|]. intros Hb. specialize (IHeq Hb). lia.
  - split; [lia|]. intros Hb. specialize (IHeq Hb).
    destruct ((default 0 (prev_signal df k) =? 0)
              && bool_decide (signal row = Some 1)) eqn:E;
      [|simpl; lia].
    exfalso. apply andb_prop in E as [Hp Hsig].
    apply Z.eqb_eq in Hp. apply bool_decide_eq_true_1 in Hsig.
    apply Hn1. split; [done|]. split; [done|].
    destruct (open_entry (trace df qty tzname k)) eqn:Ho; [|done].
    assert (Hone : prev_signal df k = Some 1).
    { apply (trace_mirrors_signal df qty tzname k Hb); [lia|by eexists]. }
    rewrite Hone in Hp. done.
Qed.

Lemma order_list_count (df : list SignalBar) (qty : Z) (tzname : string) :
  exists os,
    order_list df qty tzname = Ok os /\
    (length os <= entry_steps df)%nat /\
    (binary_signals df = true -> length os = entry_steps df).
Proof.
  rewrite order_list_trace. eexists. split; [done|].
  destruct (trace_count df qty tzname (length df - 1) ltac:(lia))
    as [Hle Heq].
  cbv zeta in *. unfold entry_steps, finish.
  destruct (open_entry (trace df qty tzname (length df - 1))).
  - rewrite length_app. simpl. split; [lia|]. intros Hb. by apply Heq.
  - split; [lia|]. intros Hb. specialize (Heq Hb). lia.
Qed.

(** X2. The ledger never has more records than the loop met 0-to-1
    steps (rows before the last with [signal_prev] 0 and [signal] 1);
    on a frame whose signals are all 0 or 1 it has exactly as many. *)
Theorem records_bounded_by_entry_steps (df : list SignalBar) (qty : Z)
  (tzname : string) :
  exists os,
    order_list df qty tzname = Ok os /\
    (length os <= entry_steps df)%nat /\
    (binary_signals df = true -> length os = entry_steps df).
Proof. apply order_list_count. Qed.

(** *** The order of the records *)

Lemma increasing_lookup (l : list Z) (i j : nat) (x y : Z) :
  increasing l = true -> (i < j)%nat ->
  l !! i = Some x -> l !! j = Some y -> x < y.
Proof.
  revert i j x y. induction l as [|a l IH]; intros i j x y Hinc Hij Hx Hy;
    [done|].
  destruct l as [|b l']; [destruct j as [|[|j]]; simpl in *; done || lia|].
  simpl in Hinc. apply andb_prop in Hinc as [Hab Hl]. apply Z.ltb_lt in Hab.
  destruct j as [|j]; [lia|]. simpl in Hy.
  destruct i as [|i].
  - simpl in Hx. injection Hx as <-.
    destruct j as [|j].
    + simpl in Hy. injection Hy as <-. done.
    + assert (b < y); [|lia].
      apply (IH 0%nat (S j) b y); [done|lia|done|done].
  - simpl in Hx. apply (IH i j x y); [done|lia|done|done].
Qed.

Lemma dates_increasing_lookup (df : list SignalBar) (i j : nat)
  (bi bj : SignalBar) :
  dates_increasing df = true -> (i < j)%nat ->
  df !! i = Some bi -> df !! j = Some bj ->
  date_ordinal (date (bar bi)) < date_ordinal (date (bar bj)).
Proof.
  intros Hinc Hij Hi Hj.
  apply (increasing_lookup _ i j _ _ Hinc Hij);
    rewrite list_lookup_fmap; [by rewrite Hi|by rewrite Hj].
Qed.

(** The records are entered and exited by iterations in one ascending
    chain, which the held position continues. *)
Lemma trace_chain (df : list SignalBar) (qty : Z) (tzname : string) (k : nat) :
  (k <= length df - 1)%nat ->
  exists idxs : list (nat * nat),
    Forall2 (filled_on df qty tzname) idxs (orders (trace df qty tzname k)) /\
    (forall a b ija ijb, (a < b)%nat ->
       idxs !! a = Some ija -> idxs !! b = Some ijb ->
       (snd ija < fst ijb)%nat) /\
    (forall a ija, idxs !! a = Some ija -> (snd ija < k)%nat) /\
    (forall e, open_entry (trace df qty tzname k) = Some e ->
       exists io ni,
         (io < k)%nat /\ df !! (io + 1)%nat = Some ni /\
         e = entry_on ni qty tzname /\
         forall a ija, idxs !! a = Some ija -> (snd ija < io)%nat).
Proof.
  induction k as [|k IH]; intros Hk.
  - exists []. simpl. split; [constructor|]. repeat split; intros; done.
  - destruct IH as (idxs & HF & Hpair & Hbound & Hopen); [lia|].
    destruct (trace_S df qty tzname k) as (row & next_row & Hrow & Hnext & HS);
      [lia|].
    rewrite HS.
    destruct (step_cases (default 0 (prev_signal df k)) row next_row qty
                tzname (trace df qty tzname k))
      as [(_ & _ & Hnone & Hst)|[(_ & _ & e & He & Hst)|(Hst & _)]];
      rewrite Hst.
    + exists idxs. simpl. split; [done|]. split; [done|]. split.
      * intros a ija Ha. specialize (Hbound a ija Ha). lia.
      * intros e' [= <-]. exists k, next_row. split; [lia|].
        split; [done|]. split; [done|]. done.
    + destruct (Hopen e He) as (io & ni & Hio & Hni & -> & Hlast).
      exists (idxs ++ [(io, k)]). simpl. split.
      { apply Forall2_app; [done|]. constructor; [|constructor].
        split; [simpl; lia|]. exists ni, next_row. done. }
      split.
      { intros a b ija ijb Hab Ha Hb.
        apply lookup_snoc_Some in Hb as [[Hblt Hb]|[-> <-]].
        - apply lookup_snoc_Some in Ha as [[_ Ha]|[-> _]]; [|lia].
          exact (Hpair a b ija ijb Hab Ha Hb).
        - apply lookup_snoc_Some in Ha as [[_ Ha]|[-> _]]; [|lia].
          simpl. exact (Hlast a ija Ha). }
      split.
      { intros a ija Ha.
        apply lookup_snoc_Some in Ha as [[_ Ha]|[_ <-]]; [|simpl; lia].
        specialize (Hbound a ija Ha). lia. }
      intros e' He'. done.
    + exists idxs. split; [done|]. split; [done|]. split.
      * intros a ija Ha. specialize (Hbound a ija Ha). lia.
      * intros e He. destruct (Hopen e He) as (io & ni & Hio & Hrest).
        exists io, ni. split; [lia|done].
Qed.

(** The chain of iterations behind two records of the ledger. *)
Lemma order_list_chain (df : list SignalBar) (qty : Z)
  (tzname : string) :
  exists os,
    order_list df qty tzname = Ok os /\
    forall a b oa ob, (a < b)%nat ->
      os !! a = Some oa -> os !! b = Some ob ->
      exists ia ja ib nia nja nib x,
        (ia < ja)%nat /\ (ja < ib)%nat /\
        df !! (ia + 1)%nat = Some nia /\ df !! (ja + 1)%nat = Some nja /\
        df !! (ib + 1)%nat = Some nib /\
        _make_dt (date (bar nia)) 9 15 tzname = Ok (entry_dt oa) /\
        exit_dt oa = Some x /\
        _make_dt (date (bar nja)) 9 15 tzname = Ok x /\
        _make_dt (date (bar nib)) 9 15 tzname = Ok (entry_dt ob) /\
        (dates_increasing df = true ->
         date_ordinal (entry_dt oa) < date_ordinal x /\
         date_ordinal x < date_ordinal (entry_dt ob)).
Proof.
  rewrite order_list_trace. eexists. split; [done|].
  destruct (trace_chain df qty tzname (length df - 1) ltac:(lia))
    as (idxs & HF & Hpair & Hbound & Hopen).
  assert (Hold : forall a oa ib nib,
    orders (trace df qty tzname (length df - 1)) !! a = Some oa ->
    df !! (ib + 1)%nat = Some nib ->
    (forall ija, idxs !! a = Some ija -> (snd ija < ib)%nat) ->
    exists ia ja nia nja x,
      (ia < ja)%nat /\ (ja < ib)%nat /\
      df !! (ia + 1)%nat = Some nia /\ df !! (ja + 1)%nat = Some nja /\
      _make_dt (date (bar nia)) 9 15 tzname = Ok (entry_dt oa) /\
      exit_dt oa = Some x /\
      _make_dt (date (bar nja)) 9 15 tzname = Ok x /\
      (dates_increasing df = true ->
       date_ordinal (entry_dt oa) < date_ordinal x /\
       date_ordinal x < date_ordinal (date (bar nib)))).
  { intros a oa ib nib Ha Hnib Hlt.
    destruct (Forall2_lookup_r _ _ _ _ _ HF Ha)
      as ([ia ja] & Hija & Hij & nia & nja & Hnia & Hnja & ->).
    simpl in *. specialize (Hlt _ Hija). simpl in Hlt.
    exists ia, ja, nia, nja, (fill_dt (date (bar nja)) tzname).
    split; [done|]. split; [done|]. split; [done|]. split; [done|].
    split; [apply make_dt_fill|]. split; [done|].
    split; [apply make_dt_fill|].
    intros Hinc. rewrite !date_ordinal_fill_dt. split.
    - apply (dates_increasing_lookup df (ia + 1) (ja + 1)); [done|lia|done|done].
    - apply (dates_increasing_lookup df (ja + 1) (ib + 1)); [done|lia|done|done]. }
  intros a b oa ob Hab Ha Hb. unfold finish in Ha, Hb.
  destruct (open_entry (trace df qty tzname (length df - 1))) as [e|] eqn:E.
  - destruct (Hopen e eq_refl) as (io & nio & Hio & Hnio & -> & Hlast).
    apply lookup_snoc_Some in Hb as [[Hblt Hb]|[Hbeq <-]].
    + apply lookup_snoc_Some in Ha as [[_ Ha]|[-> _]]; [|lia].
      destruct (Forall2_lookup_r _ _ _ _ _ HF Hb)
        as ([ib jb] & Hijb & _ & nib & njb & Hnib & _ & ->).
      destruct (Hold a oa ib nib Ha Hnib)
        as (ia & ja & nia & nja & x & H1 & H2 & H3 & H4 & H5 & H6 & H7 & H8).
      { intros ija Hija. exact (Hpair a b ija (ib, jb) Hab Hija Hijb). }
      exists ia, ja, ib, nia, nja, nib, x.
      repeat (split; [done|]). split; [apply make_dt_fill|].
      intros Hinc. simpl. rewrite date_ordinal_fill_dt. by apply H8.
    + apply lookup_snoc_Some in Ha as [[_ Ha]|[-> _]]; [|lia].
      destruct (Hold a oa io nio Ha Hnio)
        as (ia & ja & nia & nja & x & H1 & H2 & H3 & H4 & H5 & H6 & H7 & H8).
      { intros ija Hija. exact (Hlast a ija Hija). }
      exists ia, ja, io, nia, nja, nio, x.
      repeat (split; [done|]). split; [apply make_dt_fill|].
      intros Hinc. simpl. rewrite date_ordinal_fill_dt. by apply H8.
  - destruct (Forall2_lookup_r _ _ _ _ _ HF Hb)
      as ([ib jb] & Hijb & _ & nib & njb & Hnib & _ & ->).
    destruct (Hold a oa ib nib Ha Hnib)
      as (ia & ja & nia & nja & x & H1 & H2 & H3 & H4 & H5 & H6 & H7 & H8).
    { intros ija Hija. exact (Hpair a b ija (ib, jb) Hab Hija Hijb). }
    exists ia, ja, ib, nia, nja, nib, x.
    repeat (split; [done|]). split; [apply make_dt_fill|].
    intros Hinc. simpl. rewrite date_ordinal_fill_dt. by apply H8.
Qed.


(** X3. Trades do not overlap.  Of two records of the ledger the
    earlier one is finalized, and the iterations that entered it,
    exited it and entered the later one are in strictly ascending
    order; each of the three fills is on the bar after its iteration.
    When the bar dates ascend strictly, the earlier record's entry date
    is before its exit date, which is before the later record's entry
    date: the ledger is in strictly ascending order of entry date. *)
Theorem trades_do_not_overlap (df : list SignalBar) (qty : Z)
  (tzname : string) :
  exists os,
    order_list df qty tzname = Ok os /\
    forall a b oa ob, (a < b)%nat ->
      os !! a = Some oa -> os !! b = Some ob ->
      exists ia ja ib nia nja nib x,
        (ia < ja)%nat /\ (ja < ib)%nat /\
        df !! (ia + 1)%nat = Some nia /\ df !! (ja + 1)%nat = Some nja /\
        df !! (ib + 1)%nat = Some nib /\
        _make_dt (date (bar nia)) 9 15 tzname = Ok (entry_dt oa) /\
        exit_dt oa = Some x /\
        _make_dt (date (bar nja)) 9 15 tzname = Ok x /\
        _make_dt (date (bar nib)) 9 15 tzname = Ok (entry_dt ob) /\
        (dates_increasing df = true ->
         date_ordinal (entry_dt oa) < date_ordinal x /\
         date_ordinal x < date_ordinal (entry_dt ob)).
Proof. apply order_list_chain. Qed.

Lemma bars_held_positive (df : list SignalBar) (qty : Z)
  (tzname : string) :
  dates_increasing df = true ->
  exists os,
    order_list df qty tzname = Ok os /\
    forall o h, o ∈ os -> bars_held o = Some h -> 1 <= h.
Proof.
  intros Hinc. rewrite order_list_trace. eexists. split; [done|].
  intros o h Hin Hh.
  assert (Hin' : o ∈ orders (trace df qty tzname (length df - 1))).
  { unfold finish in Hin.
    destruct (open_entry (trace df qty tzname (length df - 1))) as [e|];
      [|done].
    apply elem_of_app in Hin as [Hin|Hin]; [done|].
    apply list_elem_of_singleton in Hin as ->. done. }
  destruct (orders_provenance df qty tzname (length df - 1) o)
    as (i & j & e & nj & Hij & (row & ni & _ & Hni & _ & _ & _ & ->) & Hnj & ->);
    [lia|done|].
  rewrite bars_held_exit_on in Hh. injection Hh as <-.
  pose proof (dates_increasing_lookup df (i + 1) (j + 1) ni nj Hinc
                ltac:(lia) Hni Hnj).
  lia.
Qed.

(** X4. When the bar dates ascend strictly, every finalized record is
    held for one calendar day at least: its exit is filled on a later
    bar than its entry. *)
Theorem holding_duration_positive (df : list SignalBar) (qty : Z)
  (tzname : string) :
  dates_increasing df = true ->
  exists os,
    order_list df qty tzname = Ok os /\
    forall o h, o ∈ os -> bars_held o = Some h -> 1 <= h.
Proof. apply bars_held_positive. Qed.

(** *** What the simulator reads *)

Lemma step_view_ext (p : Z) (row1 row2 n1 n2 : SignalBar) (qty : Z)
  (tzname : string) (st : State) :
  signal row1 = signal row2 ->
  date (bar n1) = date (bar n2) -> open (bar n1) = open (bar n2) ->
  step p row1 n1 qty tzname st = step p row2 n2 qty tzname st.
Proof.
  intros Hs Hd Ho. unfold step, entry_on, exit_on. by rewrite Hs, Hd, Ho.
Qed.

Lemma ledger_view_length (df1 df2 : list SignalBar) :
  ledger_view df1 = ledger_view df2 ->
  (length df1 - 1 = length df2 - 1)%nat.
Proof.
  intros [= _ Hd]. apply (f_equal length) in Hd.
  by rewrite !length_map, !length_drop in Hd.
Qed.

Lemma ledger_view_signal (df1 df2 : list SignalBar) (i : nat)
  (r1 r2 : SignalBar) :
  ledger_view df1 = ledger_view df2 -> (i < length df1 - 1)%nat ->
  df1 !! i = Some r1 -> df2 !! i = Some r2 -> signal r1 = signal r2.
Proof.
  intros Hv Hi H1 H2. pose proof (ledger_view_length _ _ Hv) as Hlen.
  injection Hv as Hs _.
  apply (f_equal (fun l => l !! i)) in Hs.
  rewrite !list_lookup_fmap, !lookup_take_lt, H1, H2 in Hs by lia.
  by injection Hs.
Qed.

Lemma ledger_view_fill (df1 df2 : list SignalBar) (i : nat)
  (n1 n2 : SignalBar) :
  ledger_view df1 = ledger_view df2 ->
  df1 !! (i + 1)%nat = Some n1 -> df2 !! (i + 1)%nat = Some n2 ->
  date (bar n1) = date (bar n2) /\ open (bar n1) = open (bar n2).
Proof.
  intros [= _ Hd] H1 H2.
  apply (f_equal (fun l => l !! i)) in Hd.
  rewrite !list_lookup_fmap, !lookup_drop in Hd.
  replace (1 + i)%nat with (i + 1)%nat in Hd by lia.
  rewrite H1, H2 in Hd. simpl in Hd. by injection Hd.
Qed.

Lemma ledger_view_prev_signal (df1 df2 : list SignalBar) (k : nat) :
  ledger_view df1 = ledger_view df2 -> (k + 1 < length df1)%nat ->
  prev_signal df1 k = prev_signal df2 k.
Proof.
  intros Hv Hk. pose proof (ledger_view_length _ _ Hv) as Hlen.
  destruct k as [|j]; [done|]. simpl.
  destruct (lookup_lt_is_Some_2 df1 j) as [r1 H1]; [lia|].
  destruct (lookup_lt_is_Some_2 df2 j) as [r2 H2]; [lia|].
  rewrite H1, H2. simpl.
  apply (ledger_view_signal df1 df2 j); [done|lia|done|done].
Qed.

Lemma trace_view (df1 df2 : list SignalBar) (qty : Z) (tzname : string)
  (k : nat) :
  ledger_view df1 = ledger_view df2 -> (k <= length df1 - 1)%nat ->
  trace df1 qty tzname k = trace df2 qty tzname k.
Proof.
  intros Hv. pose proof (ledger_view_length _ _ Hv) as Hlen.
  induction k as [|k IH]; intros Hk; [done|]. simpl.
  rewrite IH by lia.
  destruct (lookup_lt_is_Some_2 df1 k) as [r1 H1]; [lia|].
  destruct (lookup_lt_is_Some_2 df2 k) as [r2 H2]; [lia|].
  destruct (lookup_lt_is_Some_2 df1 (k + 1)) as [n1 Hn1]; [lia|].
  destruct (lookup_lt_is_Some_2 df2 (k + 1)) as [n2 Hn2]; [lia|].
  rewrite H1, H2, Hn1, Hn2.
  rewrite (ledger_view_prev_signal df1 df2 k Hv) by lia.
  destruct (ledger_view_fill df1 df2 k n1 n2 Hv Hn1 Hn2) as [Hd Ho].
  apply step_view_ext; [|done|done].
  apply (ledger_view_signal df1 df2 k); [done|lia|done|done].
Qed.

(** X5. The ledger depends on a frame only through the signals of all
    rows but the last and the dates and opens of all rows but the
    first: two frames that agree on these give the same ledger,
    whatever their highs, lows, closes, volumes and averages, the date
    and open of their first row and the signal of their last row. *)
Theorem ledger_depends_on_view (df1 df2 : list SignalBar) (qty : Z)
  (tzname : string) :
  ledger_view df1 = ledger_view df2 ->
  generate_orders df1 qty tzname = generate_orders df2 qty tzname.
Proof.
  intros Hv. unfold generate_orders.
  rewrite !order_list_trace, <- (ledger_view_length _ _ Hv).
  by rewrite (trace_view df1 df2 qty tzname _ Hv).
Qed.

(** *** Gaps in the signal column *)

(** X6. Rows with a missing signal.  An iteration on a row whose
    signal is missing changes nothing.  On the row after a missing
    signal the previous signal counts as 0: a signal 1 opens a
    position when none is held, and a held position is not closed,
    whatever the signal. *)
Theorem missing_signal_steps (df : list SignalBar) (qty : Z) (tzname : string)
  (idx : nat) :
  (idx + 1 < length df)%nat ->
  exists st st' row next_row,
    df !! idx = Some row /\ df !! (idx + 1)%nat = Some next_row /\
    state_after df qty tzname idx st /\
    state_after df qty tzname (S idx) st' /\
    (signal row = None -> st' = st) /\
    (prev_signal df idx = None -> signal row = Some 1 ->
     open_entry st = None ->
     exists dt,
       _make_dt (date (bar next_row)) 9 15 tzname = Ok dt /\
       st' = mkState (Some (mkOpenEntry dt (open (bar next_row)) qty))
                     (orders st)) /\
    (prev_signal df idx = None -> is_Some (open_entry st) -> st' = st).
Proof.
  intros Hidx.
  destruct (trace_S df qty tzname idx Hidx)
    as (row & next_row & Hrow & Hnext & HS).
  exists (trace df qty tzname idx), (trace df qty tzname (S idx)),
    row, next_row.
  split; [done|]. split; [done|].
  split; [apply run_loop_trace; lia|].
  split; [apply run_loop_trace; lia|].
  rewrite HS.
  destruct (step_cases (default 0 (prev_signal df idx)) row next_row qty
              tzname (trace df qty tzname idx))
    as [(Hp & Hsig & Hnone & Hst)|[(Hp & Hsig & e & He & Hst)|(Hst & Hn1 & _)]];
    rewrite Hst.
  - split; [congruence|]. split.
    + intros _ _ _. exists (fill_dt (date (bar next_row)) tzname).
      split; [apply make_dt_fill|done].
    + intros _ [? ?]. congruence.
  - split; [congruence|]. split.
    + intros _ _ ?. congruence.
    + intros Hprev. rewrite Hprev in Hp. done.
  - split; [done|]. split; [|done].
    intros Hprev Hsig Hnone. exfalso. apply Hn1. by rewrite Hprev.
Qed.

End Simulation.

(** * Signal generator and simulator together *)

Section Pipeline.

Context `{tzdb : TzDatabase}.

Lemma compute_sma_signals_inv (df : list Bar) (fast slow : Z)
  (out : list SignalBar) :
  compute_sma_signals df fast slow = Ok out ->
  0 <= fast /\ 0 <= slow /\
  out = with_signal df
          (map (rolling_mean_at fast (map close df)) (seq 0 (length df)))
          (map (rolling_mean_at slow (map close df)) (seq 0 (length df))).
Proof.
  unfold compute_sma_signals, rolling_mean.
  destruct (Z.ltb_spec fast 0); [done|].
  destruct (Z.ltb_spec slow 0); [done|]. simpl.
  rewrite length_map. intros [= <-]. done.
Qed.

Lemma with_signal_binary (df : list Bar) (f s : nat -> option Q) :
  binary_signals (with_signal df (map f (seq 0 (length df)))
                                 (map s (seq 0 (length df)))) = true.
Proof.
  unfold binary_signals. apply forallb_forall. intros r Hin.
  apply list_elem_of_In, list_elem_of_lookup in Hin as [i Hi].
  apply with_signal_lookup in Hi as (b & _ & ->). simpl.
  by destruct (gt_cell (f i) (s i)).
Qed.

Lemma binary_signals_complete (df : list SignalBar) :
  binary_signals df = true -> signal_complete df = true.
Proof.
  unfold binary_signals, signal_complete. rewrite !forallb_forall.
  intros H r Hin. specialize (H r Hin).
  destruct (signal r); [|done]. by apply bool_decide_eq_true_2.
Qed.

Lemma with_signal_bars (df : list Bar) (f s : nat -> option Q) :
  map bar (with_signal df (map f (seq 0 (length df)))
                          (map s (seq 0 (length df)))) = df.
Proof.
  apply list_eq. intros i. rewrite list_lookup_fmap.
  destruct (with_signal df _ _ !! i) as [r|] eqn:Hr.
  - apply with_signal_lookup in Hr as (b & Hb & ->). simpl. done.
  - apply lookup_ge_None in Hr. rewrite with_signal_length in Hr.
    simpl. symmetry. by apply lookup_ge_None.
Qed.

(** X7. Whenever [compute_sma_signals] returns, the frame it returns
    has the input bars in the input order and a signal in every row,
    each 0 or 1: it is a frame of the kind the order simulator
    assumes. *)
Theorem signals_are_binary (df : list Bar) (fast slow : Z)
  (out : list SignalBar) :
  compute_sma_signals df fast slow = Ok out ->
  map bar out = df /\ binary_signals out = true /\ signal_complete out = true.
Proof.
  intros Hout. apply compute_sma_signals_inv in Hout as (_ & _ & ->).
  split; [apply with_signal_bars|].
  pose proof (with_signal_binary df
                (rolling_mean_at fast (map close df))
                (rolling_mean_at slow (map close df))) as Hb.
  split; [done|]. by apply binary_signals_complete.
Qed.

Lemma rolling_mean_at_Some_inv (w : Z) (xs : list Q) (i : nat) (m : Q) :
  rolling_mean_at w xs i = Some m -> 0 < w /\ w <= Z.of_nat i + 1.
Proof.
  unfold rolling_mean_at.
  destruct (Z.leb_spec w 0); [done|].
  destruct (Z.ltb_spec (Z.of_nat i + 1) w); [done|]. simpl. lia.
Qed.

Lemma signal_one_warm (df : list Bar) (fast slow : Z) (i : nat)
  (r : SignalBar) :
  with_signal df
    (map (rolling_mean_at fast (map close df)) (seq 0 (length df)))
    (map (rolling_mean_at slow (map close df)) (seq 0 (length df))) !! i
  = Some r ->
  signal r = Some 1 ->
  fast <= Z.of_nat i + 1 /\ slow <= Z.of_nat i + 1.
Proof.
  intros Hr Hsig. apply with_signal_lookup in Hr as (b & _ & ->).
  simpl in Hsig.
  destruct (gt_cell _ _) eqn:Hgt; [|done].
  apply gt_cell_true in Hgt as (f & s & Hf & Hs & _).
  apply rolling_mean_at_Some_inv in Hf, Hs. lia.
Qed.

(** X8. Warm-up.  In the ledger computed from the signals of
    [compute_sma_signals], every record was entered by an iteration on
    a row where both windows are full, and filled on the bar after it:
    no entry is filled before bar index [max fast slow]. *)
Theorem no_entry_before_warm_up (df : list Bar) (fast slow : Z)
  (qty : Z) (tzname : string) (out : list SignalBar) :
  compute_sma_signals df fast slow = Ok out ->
  exists os,
    order_list out qty tzname = Ok os /\
    forall o, o ∈ os ->
      exists i b,
        Z.max fast slow <= Z.of_nat (i + 1) /\
        df !! (i + 1)%nat = Some b /\
        _make_dt (date b) 9 15 tzname = Ok (entry_dt o) /\
        entry_price o = open b.
Proof.
  intros Hout. pose proof Hout as Hinv.
  apply compute_sma_signals_inv in Hinv as (_ & _ & Heq).
  rewrite order_list_trace. eexists. split; [done|].
  intros o Hin.
  assert (Hent : exists i e,
            entered_at out qty tzname i e /\ entry_dt o = oe_entry_dt e /\
            entry_price o = oe_entry_price e).
  { unfold finish in Hin.
    destruct (open_entry (trace out qty tzname (length out - 1))) as [e|] eqn:E.
    - apply elem_of_app in Hin as [Hin|Hin].
      + destruct (orders_provenance out qty tzname _ o (le_n _) Hin)
          as (i & j & e' & nj & _ & He' & _ & ->).
        by exists i, e'.
      + apply list_elem_of_singleton in Hin as ->.
        destruct (open_entry_provenance out qty tzname _ e (le_n _) E)
          as (i & _ & He & _).
        by exists i, e.
    - destruct (orders_provenance out qty tzname _ o (le_n _) Hin)
        as (i & j & e' & nj & _ & He' & _ & ->).
      by exists i, e'. }
  destruct Hent as (i & e & (row & ni & Hrow & Hni & _ & Hsig & _ & ->) & Hdt & Hpr).
  rewrite Heq in Hrow, Hni.
  destruct (signal_one_warm df fast slow i row Hrow Hsig) as [Hf Hs].
  apply with_signal_lookup in Hni as (b & Hb & ->).
  exists i, b. split; [lia|]. split; [done|].
  rewrite Hdt, Hpr. simpl. split; [apply make_dt_fill|done].
Qed.

Lemma flat_signals_empty_ledger (df : list SignalBar) (qty : Z)
  (tzname : string) :
  (forall r, r ∈ df -> signal r = Some 0) ->
  generate_orders df qty tzname = Ok (map (fun c => (c, [])) OUTPUT_COLS).
Proof.
  intros Hflat. unfold generate_orders.
  by rewrite order_list_trace, trace_flat.
Qed.

Lemma gt_cell_irrefl (a : option Q) : gt_cell a a = false.
Proof.
  destruct a as [x|]; [|done]. simpl. unfold Qgtb.
  assert (H : Qle_bool x x = true) by (apply Qle_bool_iff, Qle_refl).
  by rewrite H.
Qed.

(** X9. With the same length for both windows the two averages are
    one column, never above itself: every signal is 0 and the ledger
    has no row. *)
Theorem equal_windows_no_trades (df : list Bar) (w : Z) (qty : Z)
  (tzname : string) :
  0 <= w ->
  exists out,
    compute_sma_signals df w w = Ok out /\
    (forall r, r ∈ out -> signal r = Some 0) /\
    generate_orders out qty tzname = Ok (map (fun c => (c, [])) OUTPUT_COLS).
Proof.
  intros Hw. eexists. split; [by apply compute_sma_signals_Ok|].
  assert (Hflat : forall r,
    r ∈ with_signal df
          (map (rolling_mean_at w (map close df)) (seq 0 (length df)))
          (map (rolling_mean_at w (map close df)) (seq 0 (length df))) ->
    signal r = Some 0).
  { intros r Hr. apply list_elem_of_lookup in Hr as [i Hr].
    apply with_signal_lookup in Hr as (b & _ & ->). simpl.
    by rewrite gt_cell_irrefl. }
  split; [done|]. by apply flat_signals_empty_ledger.
Qed.

End Pipeline.

(** * Loading and running *)

Section Loading.

Context `{tzdb : TzDatabase} `{srt : DateSort}.

#[local] Instance date_le_trans : Transitive date_le.
Proof. intros a b c. unfold date_le. lia. Qed.

Lemma NoDup_fmap_eq {A B : Type} (f : A -> B) (l : list A) (x y : A) :
  NoDup (map f l) -> x ∈ l -> y ∈ l -> f x = f y -> x = y.
Proof.
  induction l as [|a l IH]; intros Hnd Hx Hy Hf; [by apply elem_of_nil in Hx|].
  simpl in Hnd. apply NoDup_cons in Hnd as [Ha Hnd].
  apply elem_of_cons in Hx as [->|Hx]; apply elem_of_cons in Hy as [->|Hy].
  - done.
  - exfalso. apply Ha. rewrite Hf. apply list_elem_of_fmap. by exists y.
  - exfalso. apply Ha. rewrite <- Hf. apply list_elem_of_fmap. by exists x.
  - by apply IH.
Qed.

(** Rows of pairwise distinct dates have one sorted arrangement. *)
Lemma sort_values_date_unique (rows rows' : list Bar) :
  NoDup (map (fun b => wall_seconds (date b)) rows) ->
  rows' ≡ₚ rows ->
  sort_values_date rows' = sort_values_date rows.
Proof.
  intros Hnd Hperm.
  apply (Sorted_unique_strong date_le);
    [|apply sort_values_date_sorted|apply sort_values_date_sorted|].
  - intros x1 x2 H1 H2 H12 H21.
    apply (NoDup_fmap_eq (fun b => wall_seconds (date b)) rows); [done| | |].
    + by rewrite <- Hperm, <- (sort_values_date_perm rows').
    + by rewrite <- (sort_values_date_perm rows).
    + unfold date_le in *. lia.
  - by rewrite !sort_values_date_perm.
Qed.

Lemma date_ordinal_le (a b : Bar) :
  valid_clock (date a) = true -> valid_clock (date b) = true ->
  date_le a b -> date_ordinal (date a) <= date_ordinal (date b).
Proof.
  unfold valid_clock, date_le, wall_seconds. intros Ha Hb Hle.
  repeat (apply andb_prop in Ha as [Ha ?]).
  repeat (apply andb_prop in Hb as [Hb ?]).
  lia.
Qed.

(** Sorted rows on pairwise distinct days have ascending days. *)
Lemma sorted_days_increasing (l : list Bar) :
  Sorted date_le l ->
  (forall b, b ∈ l -> valid_clock (date b) = true) ->
  NoDup (map (fun b => date_ordinal (date b)) l) ->
  increasing (map (fun b => date_ordinal (date b)) l) = true.
Proof.
  induction 1 as [|a l Hs IH Hhd]; intros Hv Hnd; [done|].
  simpl in Hnd. apply NoDup_cons in Hnd as [Ha Hnd].
  destruct l as [|b l']; [done|].
  cbn [map increasing]. apply andb_true_intro. split.
  - apply Z.ltb_lt. inversion Hhd as [|? ? Hab]; subst.
    assert (date_ordinal (date a) <= date_ordinal (date b)).
    { apply date_ordinal_le; [apply Hv; left|apply Hv; right; left|done]. }
    assert (date_ordinal (date a) <> date_ordinal (date b)); [|lia].
    intros Heq. apply Ha. rewrite Heq. simpl. left.
  - apply IH; [|done]. intros b' Hb'. apply Hv. by right.
Qed.

(** X11. When the dates of the file are pairwise distinct, the order
    of its rows does not matter: [run] gives the same result, frame or
    error, on every rearrangement of the rows. *)
Theorem run_row_order_irrelevant (columns : list string)
  (rows rows' : list Bar) (fast slow qty : Z) (timezone : option string) :
  NoDup (map (fun b => wall_seconds (date b)) rows) ->
  rows' ≡ₚ rows ->
  run columns rows' fast slow qty timezone
  = run columns rows fast slow qty timezone.
Proof.
  intros Hnd Hperm. unfold run, load_data.
  destruct (decide (columns = REQUIRED_COLS)); [|done].
  by rewrite (sort_values_date_unique rows rows' Hnd Hperm).
Qed.

(** X12. After [load_data], on a file whose rows are on pairwise
    distinct days, whatever their order in the file: the ledger [run]
    writes is in strictly ascending order of entry date, every
    finalized record was held for one day at least, and there are as
    many records as 0-to-1 steps of the signal before the last row. *)
Theorem run_ledger_ascending (columns : list string) (rows : list Bar)
  (fast slow qty : Z) (timezone : option string) :
  columns = REQUIRED_COLS -> 0 <= fast -> 0 <= slow ->
  (forall b, b ∈ rows -> valid_clock (date b) = true) ->
  NoDup (map (fun b => date_ordinal (date b)) rows) ->
  exists df out os,
    load_data columns rows = Ok df /\
    compute_sma_signals df fast slow = Ok out /\
    order_list out qty (default "Asia/Kolkata"%string timezone) = Ok os /\
    run columns rows fast slow qty timezone = Ok (ledger_frame os) /\
    (forall a b oa ob, (a < b)%nat ->
       os !! a = Some oa -> os !! b = Some ob ->
       date_ordinal (entry_dt oa) < date_ordinal (entry_dt ob)) /\
    (forall o h, o ∈ os -> bars_held o = Some h -> 1 <= h) /\
    length os = entry_steps out.
Proof.
  intros -> Hf Hs Hv Hnd.
  set (tzname := default "Asia/Kolkata"%string timezone).
  set (df := sort_values_date rows).
  set (out := with_signal df
                (map (rolling_mean_at fast (map close df)) (seq 0 (length df)))
                (map (rolling_mean_at slow (map close df)) (seq 0 (length df)))).
  assert (Hload : load_data REQUIRED_COLS rows = Ok df).
  { unfold load_data. by rewrite decide_True. }
  assert (Hout : compute_sma_signals df fast slow = Ok out).
  { by apply compute_sma_signals_Ok. }
  assert (Hinc : dates_increasing out = true).
  { unfold dates_increasing.
    replace (map (fun r => date_ordinal (date (bar r))) out)
      with (map (fun b => date_ordinal (date b)) (map bar out))
      by (by rewrite map_map).
    unfold out. rewrite with_signal_bars.
    apply sorted_days_increasing.
    - apply sort_values_date_sorted.
    - intros b Hb. apply Hv. unfold df in Hb.
      by rewrite sort_values_date_perm in Hb.
    - unfold df.
      assert (Hp : map (fun b => date_ordinal (date b)) (sort_values_date rows)
                   ≡ₚ map (fun b => date_ordinal (date b)) rows).
      { apply Permutation_map, sort_values_date_perm. }
      by rewrite Hp. }
  assert (Hbin : binary_signals out = true) by apply with_signal_binary.
  destruct (order_list_chain out qty tzname) as (os & Hos & Hchain).
  exists df, out, os.
  split; [done|]. split; [done|]. split; [done|].
  split.
  { unfold run. rewrite Hload. simpl. fold tzname.
    change (compute_sma_signals df fast slow ≫= (fun df_sig =>
              generate_orders df_sig qty tzname) = Ok (ledger_frame os)).
    rewrite Hout. simpl. by apply generate_orders_frame. }
  split.
  { intros a b oa ob Hab Ha Hb.
    destruct (Hchain a b oa ob Hab Ha Hb)
      as (ia & ja & ib & nia & nja & nib & x & _ & _ & _ & _ & _ & _ & _ & _
          & _ & Hdates).
    destruct (Hdates Hinc). lia. }
  split.
  { destruct (bars_held_positive out qty tzname Hinc) as (os' & Hos' & Hpos).
    rewrite Hos in Hos'. injection Hos' as <-. done. }
  destruct (order_list_count out qty tzname) as (os' & Hos' & _ & Heq).
  rewrite Hos in Hos'. injection Hos' as <-. by apply Heq.
Qed.

Lemma short_series_signals_flat (df : list Bar) (fast slow : Z) (r : SignalBar) :
  Z.of_nat (length df) < slow ->
  r ∈ with_signal df
        (map (rolling_mean_at fast (map close df)) (seq 0 (length df)))
        (map (rolling_mean_at slow (map close df)) (seq 0 (length df))) ->
  signal r = Some 0.
Proof.
  intros Hlen Hr. apply list_elem_of_lookup in Hr as [i Hr].
  apply with_signal_lookup in Hr as (b & Hb & ->). simpl.
  apply lookup_lt_Some in Hb.
  assert (Hnone : rolling_mean_at slow (map close df) i = None).
  { apply rolling_mean_at_None; lia. }
  rewrite Hnone. by destruct (rolling_mean_at fast (map close df) i).
Qed.

(** X13. A file with fewer rows than the slow window goes through
    [run] without an error and gives the ledger with no row. *)
Theorem run_short_file_no_trades (columns : list string) (rows : list Bar)
  (fast slow qty : Z) (timezone : option string) :
  columns = REQUIRED_COLS -> 0 < fast -> Z.of_nat (length rows) < slow ->
  run columns rows fast slow qty timezone
  = Ok (map (fun c => (c, [])) OUTPUT_COLS).
Proof.
  intros -> Hf Hlen. unfold run, load_data. rewrite decide_True by done.
  simpl.
  change (compute_sma_signals (sort_values_date rows) fast slow ≫=
            (fun df_sig => generate_orders df_sig qty
                             (default "Asia/Kolkata"%string timezone))
          = Ok (map (fun c => (c, [])) OUTPUT_COLS)).
  rewrite compute_sma_signals_Ok by lia. simpl.
  apply flat_signals_empty_ledger. intros r Hr.
  apply (short_series_signals_flat (sort_values_date rows) fast slow);
    [|done].
  by rewrite sort_values_date_perm.
Qed.

End Loading.

(** * The zone and the written ledger *)

Section SameZone.

Context `{tzdb : TzDatabase}.

(** Under a zone that takes every fill time or none, each timestamp
    column holds timestamps of one kind. *)
Lemma uniform_zone_same_zone (df : list SignalBar) (qty : Z) (tzname : string)
  (os : list Order) :
  uniform_zone df tzname -> order_list df qty tzname = Ok os ->
  same_zone (zones (map (fun o => Some (entry_dt o)) os)) = true /\
  same_zone (zones (map exit_dt os)) = true.
Proof.
  intros [u Hu] Hos.
  destruct (order_list_records df qty tzname) as (os' & Hos' & Hrec).
  rewrite Hos in Hos'. injection Hos' as <-.
  set (z := if u then Some tzname else None).
  assert (Hfill : forall r, r ∈ df ->
            ts_tz (fill_dt (date (bar r)) tzname) = z).
  { intros r Hr. by rewrite ts_tz_fill_dt, (Hu r Hr). }
  split.
  - apply (same_zone_const z), zones_entry_const, Forall_forall.
    intros o Ho. destruct (Hrec o Ho) as (ni & Hni & -> & _).
    by apply Hfill.
  - apply (same_zone_const z), zones_exit_const, Forall_forall.
    intros o Ho x Hx.
    destruct (Hrec o Ho) as (_ & _ & _ & [(Hn & _)|Hex]); [congruence|].
    destruct Hex as (nj & p & g & h & Hnj & Hx' & _).
    rewrite Hx in Hx'. injection Hx' as Hx'. rewrite Hx'. by apply Hfill.
Qed.

End SameZone.

Lemma map_through_strip {B : Type} (f g : Order -> B) (os1 os2 : list Order) :
  (forall o, f o = g (strip_order o)) ->
  map strip_order os1 = map strip_order os2 ->
  map f os1 = map f os2.
Proof.
  intros Hfg Hs.
  assert (H : forall os, map f os = map g (map strip_order os)).
  { intros os. rewrite map_map. apply map_ext. intros o. apply Hfg. }
  by rewrite !H, Hs.
Qed.

Lemma finish_strip (st : State) :
  map strip_order (finish st) = finish (strip_state st).
Proof.
  unfold finish, strip_state. simpl.
  destruct (open_entry st) as [e|]; simpl; [|done].
  by rewrite map_app.
Qed.

Section Zones.

Context (tzdb1 tzdb2 : TzDatabase).

Lemma step_strip (p : Z) (row next_row : SignalBar) (qty : Z)
  (tz1 tz2 : string) (st1 st2 : State) :
  strip_state st1 = strip_state st2 ->
  strip_state (@step tzdb1 p row next_row qty tz1 st1)
  = strip_state (@step tzdb2 p row next_row qty tz2 st2).
Proof.
  intros Hst. unfold step.
  assert (Hnone : bool_decide (open_entry st1 = None)
                  = bool_decide (open_entry st2 = None)).
  { apply (f_equal open_entry) in Hst. simpl in Hst.
    destruct (open_entry st1), (open_entry st2); done. }
  assert (Hord : map strip_order (orders st1) = map strip_order (orders st2)).
  { by apply (f_equal orders) in Hst. }
  rewrite Hnone.
  destruct ((p =? 0) && bool_decide (signal row = Some 1)
            && bool_decide (open_entry st2 = None)); simpl.
  - destruct ((p =? 1) && bool_decide (signal row = Some 0)).
    + unfold strip_state. simpl. rewrite !map_app, Hord. simpl.
      unfold strip_order. simpl. by rewrite !tz_strip_fill_dt.
    + unfold strip_state. simpl. rewrite Hord.
      unfold strip_entry. simpl. by rewrite !tz_strip_fill_dt.
  - assert (Hopen : strip_entry <$> open_entry st1
                    = strip_entry <$> open_entry st2).
    { by apply (f_equal open_entry) in Hst. }
    destruct (open_entry st1) as [e1|] eqn:E1,
             (open_entry st2) as [e2|] eqn:E2; simpl in Hopen; try done.
    assert (He : strip_entry e1 = strip_entry e2) by congruence.
    pose proof (f_equal oe_entry_dt He) as Hdt.
    pose proof (f_equal oe_entry_price He) as Hpr.
    pose proof (f_equal oe_qty He) as Hq. simpl in Hdt, Hpr, Hq.
    destruct ((p =? 1) && bool_decide (signal row = Some 0)).
    + unfold strip_state. simpl. rewrite !map_app, Hord. simpl.
      unfold strip_order, exit_on. simpl. rewrite !tz_strip_fill_dt.
      by rewrite Hdt, Hpr, Hq.
    + unfold strip_state. rewrite E1, E2, Hord. simpl. by rewrite He.
Qed.

Lemma trace_strip (df : list SignalBar) (qty : Z) (tz1 tz2 : string) (k : nat) :
  strip_state (@trace tzdb1 df qty tz1 k)
  = strip_state (@trace tzdb2 df qty tz2 k).
Proof.
  induction k as [|k IH]; [done|]. simpl.
  destruct (df !! k) as [row|]; [|done].
  destruct (df !! (k + 1)%nat) as [next_row|]; [|done].
  by apply step_strip.
Qed.

(** X14. The zone does not show in the written ledger.  Take two
    zone names, under the same or two zone databases, each of which
    localizes the fill time of every bar date or of none: the frames
    [generate_orders] returns for them are equal, cell by cell. *)
Theorem ledger_independent_of_zone (df : list SignalBar) (qty : Z)
  (tz1 tz2 : string) :
  @uniform_zone tzdb1 df tz1 -> @uniform_zone tzdb2 df tz2 ->
  @generate_orders tzdb1 df qty tz1 = @generate_orders tzdb2 df qty tz2.
Proof.
  intros Hu1 Hu2.
  pose proof (@order_list_trace tzdb1 df qty tz1) as H1.
  pose proof (@order_list_trace tzdb2 df qty tz2) as H2.
  rewrite (@generate_orders_frame tzdb1 _ _ _ _ H1).
  rewrite (@generate_orders_frame tzdb2 _ _ _ _ H2).
  destruct (@uniform_zone_same_zone tzdb1 df qty tz1 _ Hu1 H1) as [He1 Hx1].
  destruct (@uniform_zone_same_zone tzdb2 df qty tz2 _ Hu2 H2) as [He2 Hx2].
  assert (Hs : map strip_order
                 (finish (@trace tzdb1 df qty tz1 (length df - 1)))
               = map strip_order
                   (finish (@trace tzdb2 df qty tz2 (length df - 1)))).
  { by rewrite !finish_strip, (trace_strip df qty tz1 tz2). }
  set (os1 := finish (@trace tzdb1 df qty tz1 (length df - 1))) in *.
  set (os2 := finish (@trace tzdb2 df qty tz2 (length df - 1))) in *.
  clearbody os1 os2.
  unfold ledger_frame, render_dt_column. rewrite He1, He2, Hx1, Hx2.
  assert (C1 : map strftime_cell (map (fun o => Some (entry_dt o)) os1)
               = map strftime_cell (map (fun o => Some (entry_dt o)) os2)).
  { rewrite !map_map.
    by apply (map_through_strip _
                (fun o => strftime_cell (Some (entry_dt o)))). }
  assert (C2 : map (fun o => CFloat (entry_price o)) os1
               = map (fun o => CFloat (entry_price o)) os2).
  { by apply (map_through_strip _ (fun o => CFloat (entry_price o))). }
  assert (C3 : map (fun o => CInt (order_qty o)) os1
               = map (fun o => CInt (order_qty o)) os2).
  { by apply (map_through_strip _ (fun o => CInt (order_qty o))). }
  assert (C4 : map strftime_cell (map exit_dt os1)
               = map strftime_cell (map exit_dt os2)).
  { rewrite !map_map.
    apply (map_through_strip _ (fun o => strftime_cell (exit_dt o)));
      [|done].
    intros o. simpl. by destruct (exit_dt o). }
  assert (C5 : map (fun o => blank_or CFloat (exit_price o)) os1
               = map (fun o => blank_or CFloat (exit_price o)) os2).
  { by apply (map_through_strip _
                (fun o => blank_or CFloat (exit_price o))). }
  assert (C6 : map (fun o => blank_or CFloat (pnl o)) os1
               = map (fun o => blank_or CFloat (pnl o)) os2).
  { by apply (map_through_strip _ (fun o => blank_or CFloat (pnl o))). }
  assert (C7 : map (fun o => blank_or CInt (bars_held o)) os1
               = map (fun o => blank_or CInt (bars_held o)) os2).
  { by apply (map_through_strip _
                (fun o => blank_or CInt (bars_held o))). }
  by rewrite C1, C2, C3, C4, C5, C6, C7.
Qed.

End Zones.

(** * Growing data *)

Section Growing.

Context `{tzdb : TzDatabase}.

Lemma rolling_mean_at_take (w : Z) (xs : list Q) (k i : nat) :
  (i < k)%nat -> rolling_mean_at w (take k xs) i = rolling_mean_at w xs i.
Proof.
  intros Hik. unfold rolling_mean_at.
  destruct ((w <=? 0) || (Z.of_nat i + 1 <? w)) eqn:E; [done|].
  apply orb_false_elim in E as [Hw Hi].
  apply Z.leb_gt in Hw. apply Z.ltb_ge in Hi.
  do 3 f_equal.
  rewrite !take_drop_commute, take_take. do 2 f_equal. lia.
Qed.

Lemma with_signal_lookup_Some (df : list Bar) (f s : nat -> option Q) (i : nat)
  (b : Bar) :
  df !! i = Some b ->
  with_signal df (map f (seq 0 (length df))) (map s (seq 0 (length df))) !! i
  = Some (mkSignalBar b (f i) (s i) (Some (astype_int (gt_cell (f i) (s i))))).
Proof.
  intros Hb.
  destruct (with_signal df _ _ !! i) as [r|] eqn:Hr.
  - apply with_signal_lookup in Hr as (b' & Hb' & ->). congruence.
  - apply lookup_ge_None in Hr. rewrite with_signal_length in Hr.
    apply lookup_lt_Some in Hb. lia.
Qed.

Lemma compute_sma_signals_take (df : list Bar) (fast slow : Z)
  (out : list SignalBar) (k : nat) :
  compute_sma_signals df fast slow = Ok out ->
  compute_sma_signals (take k df) fast slow = Ok (take k out).
Proof.
  intros Hout. apply compute_sma_signals_inv in Hout as (Hf & Hs & ->).
  rewrite compute_sma_signals_Ok by done. f_equal.
  apply list_eq. intros i.
  destruct (decide (i < k)%nat) as [Hik|Hik].
  - rewrite lookup_take_lt by done.
    destruct (df !! i) as [b|] eqn:Hb.
    + rewrite (with_signal_lookup_Some df _ _ i b Hb).
      rewrite (with_signal_lookup_Some (take k df) _ _ i b)
        by (by rewrite lookup_take_lt).
      assert (Hm : forall w, rolling_mean_at w (map close (take k df)) i
                             = rolling_mean_at w (map close df) i).
      { intros w.
        replace (map close (take k df)) with (take k (map close df))
          by (symmetry; apply fmap_take).
        by apply rolling_mean_at_take. }
      by rewrite !Hm.
    + apply lookup_ge_None in Hb.
      rewrite !(proj2 (lookup_ge_None _ _)); [done| |].
      * rewrite with_signal_length. lia.
      * rewrite with_signal_length, length_take. lia.
  - rewrite lookup_take_ge by lia.
    apply lookup_ge_None. rewrite with_signal_length, length_take. lia.
Qed.

(** X15. No look-ahead in the signals: the rows [compute_sma_signals]
    returns for the first [k] bars of a series are the first [k] rows
    it returns for the whole series; averages and signal of a row do
    not depend on later bars. *)
Theorem signals_have_no_lookahead (df : list Bar) (fast slow : Z)
  (out : list SignalBar) (k : nat) :
  compute_sma_signals df fast slow = Ok out ->
  compute_sma_signals (take k df) fast slow = Ok (take k out).
Proof. apply compute_sma_signals_take. Qed.

Lemma prev_signal_take (df : list SignalBar) (m k : nat) :
  (k <= m)%nat -> prev_signal (take m df) k = prev_signal df k.
Proof.
  intros Hk. destruct k as [|j]; [done|]. simpl.
  by rewrite lookup_take_lt by lia.
Qed.

Lemma trace_take (df : list SignalBar) (qty : Z) (tzname : string) (m k : nat) :
  (k + 1 <= m)%nat ->
  trace (take m df) qty tzname k = trace df qty tzname k.
Proof.
  induction k as [|k IH]; intros Hk; [done|]. simpl.
  rewrite IH by lia. rewrite prev_signal_take by lia.
  by rewrite !lookup_take_lt by lia.
Qed.

Lemma step_orders (p : Z) (row next_row : SignalBar) (qty : Z)
  (tzname : string) (st : State) :
  exists tail, orders (step p row next_row qty tzname st) = orders st ++ tail.
Proof.
  destruct (step_cases p row next_row qty tzname st)
    as [(_ & _ & _ & Hst)|[(_ & _ & e & _ & Hst)|(Hst & _)]]; rewrite Hst.
  - exists []. simpl. by rewrite app_nil_r.
  - eexists. simpl. done.
  - exists []. by rewrite app_nil_r.
Qed.

(** Records are only ever appended. *)
Lemma trace_orders_grow (df : list SignalBar) (qty : Z) (tzname : string)
  (k d : nat) :
  exists tail,
    orders (trace df qty tzname (k + d)) = orders (trace df qty tzname k) ++ tail.
Proof.
  induction d as [|d IH].
  - exists []. by rewrite Nat.add_0_r, app_nil_r.
  - destruct IH as (tail & IH).
    replace (k + S d)%nat with (S (k + d)) by lia. simpl.
    destruct (df !! (k + d)%nat) as [row|]; [|by exists tail].
    destruct (df !! (k + d + 1)%nat) as [next_row|]; [|by exists tail].
    destruct (step_orders (default 0 (prev_signal df (k + d))) row next_row
                qty tzname (trace df qty tzname (k + d))) as (t2 & Ht2).
    exists (tail ++ t2). by rewrite Ht2, IH, app_assoc.
Qed.

(** A held position is still held later, or its record comes next. *)
Lemma trace_position_kept (df : list SignalBar) (qty : Z) (tzname : string)
  (k d : nat) (e : OpenEntry) :
  open_entry (trace df qty tzname k) = Some e ->
  (open_entry (trace df qty tzname (k + d)) = Some e /\
   orders (trace df qty tzname (k + d)) = orders (trace df qty tzname k))
  \/ exists nj rest,
       orders (trace df qty tzname (k + d))
       = orders (trace df qty tzname k) ++ exit_on e nj tzname :: rest.
Proof.
  intros He. induction d as [|d IH].
  - left. by rewrite Nat.add_0_r.
  - replace (k + S d)%nat with (S (k + d)) by lia. simpl.
    destruct (df !! (k + d)%nat) as [row|]; [|done].
    destruct (df !! (k + d + 1)%nat) as [next_row|]; [|done].
    destruct IH as [[Hopen Hord]|(nj & rest & Hord)].
    + destruct (step_cases (default 0 (prev_signal df (k + d))) row next_row
                  qty tzname (trace df qty tzname (k + d)))
        as [(_ & _ & Hnone & _)|[(_ & _ & e' & He' & Hst)|(Hst & _)]].
      * congruence.
      * right. exists next_row, []. rewrite Hst. simpl.
        rewrite Hord. congruence.
      * left. by rewrite Hst.
    + right.
      destruct (step_orders (default 0 (prev_signal df (k + d))) row next_row
                  qty tzname (trace df qty tzname (k + d))) as (t2 & Ht2).
      exists nj, (rest ++ t2). by rewrite Ht2, Hord, <- app_assoc.
Qed.

Lemma filter_closed_finish (st : State) :
  Forall (fun o => is_closed o = true) (orders st) ->
  filter (fun o => is_closed o = true) (finish st) = orders st.
Proof.
  intros Hc.
  assert (Hf : filter (fun o => is_closed o = true) (orders st) = orders st).
  { induction Hc as [|o os Ho _ IH]; [done|].
    by rewrite filter_cons_True, IH by done. }
  unfold finish. destruct (open_entry st); [|done].
  rewrite filter_app, Hf. simpl. by rewrite app_nil_r.
Qed.

Lemma order_list_grows (df more : list SignalBar) (qty : Z)
  (tzname : string) :
  exists os os',
    order_list df qty tzname = Ok os /\
    order_list (df ++ more) qty tzname = Ok os' /\
    filter (fun o => is_closed o = true) os `prefix_of` os' /\
    forall i o, os !! i = Some o ->
      exists o',
        os' !! i = Some o' /\
        entry_dt o' = entry_dt o /\ entry_price o' = entry_price o /\
        order_qty o' = order_qty o /\
        (is_closed o = true -> o' = o).
Proof.
  rewrite !order_list_trace. eexists _, _. split; [done|]. split; [done|].
  set (k := (length df - 1)%nat). set (K := (length (df ++ more) - 1)%nat).
  assert (HkK : (k <= K)%nat) by (unfold k, K; rewrite length_app; lia).
  assert (Htr : trace df qty tzname k = trace (df ++ more) qty tzname k).
  { destruct (decide (length df = 0)%nat) as [Hz|Hz].
    - unfold k. by rewrite Hz.
    - rewrite <- (trace_take (df ++ more) qty tzname (length df) k)
        by (unfold k; lia).
      by rewrite take_app_length. }
  pose proof (orders_closed df qty tzname k ltac:(unfold k; lia)) as Hclosed.
  rewrite Htr in *.
  set (st := trace (df ++ more) qty tzname k) in *.
  destruct (trace_orders_grow (df ++ more) qty tzname k (K - k))
    as (tail & Htail).
  replace (k + (K - k))%nat with K in Htail by lia.
  fold st in Htail.
  set (ST := trace (df ++ more) qty tzname K) in *.
  assert (Hkept : forall e, open_entry st = Some e ->
            (open_entry ST = Some e /\ orders ST = orders st)
            \/ exists nj rest,
                 orders ST = orders st ++ exit_on e nj tzname :: rest).
  { intros e He.
    pose proof (trace_position_kept (df ++ more) qty tzname k (K - k) e He)
      as H.
    replace (k + (K - k))%nat with K in H by lia. exact H. }
  split.
  { rewrite (filter_closed_finish st Hclosed). unfold finish.
    destruct (open_entry ST).
    - exists (tail ++ [open_order o]). by rewrite Htail, app_assoc.
    - exists tail. done. }
  intros i o Hi.
  assert (Hold : orders st !! i = Some o ->
            exists o', finish ST !! i = Some o' /\
              entry_dt o' = entry_dt o /\ entry_price o' = entry_price o /\
              order_qty o' = order_qty o /\ (is_closed o = true -> o' = o)).
  { intros Ho. exists o. split; [|done].
    unfold finish. destruct (open_entry ST).
    - rewrite Htail, <- app_assoc. by apply lookup_app_l_Some.
    - rewrite Htail. by apply lookup_app_l_Some. }
  unfold finish in Hi.
  destruct (open_entry st) as [e|] eqn:He; [|by apply Hold].
  apply lookup_snoc_Some in Hi as [[_ Hi]|[-> <-]]; [by apply Hold|].
  destruct (Hkept e eq_refl) as [[Hopen Hord]|(nj & rest & Hord)].
  - exists (open_order e). split; [|done].
    unfold finish. rewrite Hopen, Hord.
    by rewrite lookup_app_r, Nat.sub_diag by lia.
  - exists (exit_on e nj tzname). split; [|done].
    unfold finish. destruct (open_entry ST).
    + rewrite Hord, <- app_assoc.
      by rewrite lookup_app_r, Nat.sub_diag by lia.
    + rewrite Hord. by rewrite lookup_app_r, Nat.sub_diag by lia.
Qed.

(** X16. The ledger only grows when bars are appended.  The finalized
    records of the ledger of a series are the first records of the
    ledger of every extension of the series, unchanged; and the open
    record of the shorter ledger, if there is one, stands at the same
    position in the longer one with the same entry timestamp, entry
    price and quantity, open or finalized. *)
Theorem ledger_grows_by_appending (df more : list SignalBar) (qty : Z)
  (tzname : string) :
  exists os os',
    order_list df qty tzname = Ok os /\
    order_list (df ++ more) qty tzname = Ok os' /\
    filter (fun o => is_closed o = true) os `prefix_of` os' /\
    forall i o, os !! i = Some o ->
      exists o',
        os' !! i = Some o' /\
        entry_dt o' = entry_dt o /\ entry_price o' = entry_price o /\
        order_qty o' = order_qty o /\
        (is_closed o = true -> o' = o).
Proof. apply order_list_grows. Qed.

(** X17. A run on more data never rewrites earlier trades.  Compute
    the signals and the ledger on the first [k] bars of a series and
    on the whole series: the finalized records of the first ledger are
    the first records of the second, and a record still open in the
    first stands at the same place in the second with the same entry
    timestamp, price and quantity. *)
Theorem pipeline_ledger_grows (df : list Bar) (fast slow qty : Z)
  (tzname : string) (out : list SignalBar) (k : nat) :
  compute_sma_signals df fast slow = Ok out ->
  exists out_k os os',
    compute_sma_signals (take k df) fast slow = Ok out_k /\
    order_list out_k qty tzname = Ok os /\
    order_list out qty tzname = Ok os' /\
    filter (fun o => is_closed o = true) os `prefix_of` os' /\
    forall i o, os !! i = Some o ->
      exists o',
        os' !! i = Some o' /\
        entry_dt o' = entry_dt o /\ entry_price o' = entry_price o /\
        order_qty o' = order_qty o /\
        (is_closed o = true -> o' = o).
Proof.
  intros Hout.
  destruct (order_list_grows (take k out) (drop k out) qty tzname)
    as (os & os' & Hos & Hos' & Hpre & Hsame).
  rewrite take_drop in Hos'.
  exists (take k out), os, os'.
  split; [by apply compute_sma_signals_take|]. done.
Qed.

End Growing.

(** * The timestamp columns of every ledger *)

Section Frame.

Context `{tzdb : TzDatabase}.

(** X18. The two timestamp columns of the returned frame, for every
    input.  Each column, on its own, is turned into strings (NaN for a
    blank exit) when its timestamps are all naive or all of one zone,
    and is left as timestamp objects (the empty string for a blank
    exit) when it mixes them; a blank exit does not count as a
    zone. *)
Theorem timestamp_columns_rendering (df : list SignalBar) (qty : Z)
  (tzname : string) :
  exists os frame,
    order_list df qty tzname = Ok os /\
    generate_orders df qty tzname = Ok frame /\
    df_get "entry_dt" frame
    = Some (if same_zone (map (fun o => ts_tz (entry_dt o)) os)
            then map (fun o => CStr (strftime (entry_dt o))) os
            else map (fun o => CTs (entry_dt o)) os) /\
    df_get "exit_dt" frame
    = Some (if same_zone (omap (fun o => ts_tz <$> exit_dt o) os)
            then map (fun o => match exit_dt o with
                               | Some t => CStr (strftime t)
                               | None => CNaN
                               end) os
            else map (fun o => match exit_dt o with
                               | Some t => CTs t
                               | None => CStr ""
                               end) os).
Proof.
  pose proof (order_list_trace df qty tzname) as Hos.
  eexists _, _. split; [exact Hos|].
  split; [exact (generate_orders_frame _ _ _ _ Hos)|].
  generalize (finish (trace df qty tzname (length df - 1))). intros os.
  assert (Hz1 : zones (map (fun o => Some (entry_dt o)) os)
                = map (fun o => ts_tz (entry_dt o)) os).
  { unfold zones. clear Hos. induction os as [|o os' IH]; [done|].
    cbn [map omap list_omap fmap option_fmap option_map]. by rewrite IH. }
  assert (Hz2 : zones (map exit_dt os)
                = omap (fun o => ts_tz <$> exit_dt o) os).
  { unfold zones. clear Hos Hz1. induction os as [|o os' IH]; [done|].
    cbn [map omap list_omap].
    destruct (exit_dt o); cbn [fmap option_fmap option_map]; by rewrite IH. }
  split.
  - unfold ledger_frame, render_dt_column. simpl. rewrite Hz1.
    destruct (same_zone _); by rewrite map_map.
  - unfold ledger_frame, render_dt_column. simpl. rewrite Hz2.
    destruct (same_zone _); rewrite map_map; f_equal;
      apply map_ext; intros o; by destruct (exit_dt o).
Qed.

End Frame.

(** * Instances of the further properties *)

(** [hold_bars] has 0/1 signals; the signal of its row 1 is 1 and a
    position is held after the iteration on that row. *)
Lemma position_follows_signal_witness :
  binary_signals hold_bars = true /\
  exists st,
    @state_after sample_tzdb hold_bars 5 "UTC" 2 st /\
    is_Some (open_entry st).
Proof.
  split; [reflexivity|].
  destruct (proj1 (@position_follows_signal sample_tzdb hold_bars 5 "UTC"
                     eq_refl) 1%nat ltac:(simpl; lia))
    as (st & row & Hst & Hrow & Hiff).
  simpl in Hrow. injection Hrow as <-.
  exists st. split; [exact Hst|]. apply Hiff. reflexivity.
Defined.

(** [two_trades] has 0/1 signals and two 0-to-1 steps before its last
    row: its ledger has two records. *)
Lemma records_bounded_by_entry_steps_witness :
  exists os,
    @order_list sample_tzdb two_trades 5 "UTC" = Ok os /\
    length os = 2%nat.
Proof.
  destruct (@records_bounded_by_entry_steps sample_tzdb two_trades 5 "UTC")
    as (os & Hos & _ & Heq).
  exists os. split; [exact Hos|]. rewrite (Heq eq_refl). reflexivity.
Defined.

(** The two records of [two_trades]: the second is entered on a later
    date than the first. *)
Lemma trades_do_not_overlap_witness :
  exists os oa ob,
    @order_list sample_tzdb two_trades 5 "UTC" = Ok os /\
    os !! 0%nat = Some oa /\ os !! 1%nat = Some ob /\
    date_ordinal (entry_dt oa) < date_ordinal (entry_dt ob).
Proof.
  destruct (@trades_do_not_overlap sample_tzdb two_trades 5 "UTC")
    as (os & Hos & Hchain).
  pose proof Hos as Hos'. vm_compute in Hos'. injection Hos' as <-.
  eexists _, _, _. split; [exact Hos|].
  split; [reflexivity|]. split; [reflexivity|].
  destruct (Hchain 0%nat 1%nat _ _ ltac:(lia) eq_refl eq_refl)
    as (ia & ja & ib & nia & nja & nib & x & _ & _ & _ & _ & _ & _ & _ & _ & _
        & Hdates).
  destruct (Hdates eq_refl) as [H1 H2].
  exact (Z.lt_trans _ _ _ H1 H2).
Defined.

(** The dates of [two_trades] ascend. *)
Lemma holding_duration_positive_witness :
  dates_increasing two_trades = true /\
  exists os,
    @order_list sample_tzdb two_trades 5 "UTC" = Ok os /\
    forall o h, o ∈ os -> bars_held o = Some h -> 1 <= h.
Proof.
  split; [reflexivity|].
  exact (@holding_duration_positive sample_tzdb two_trades 5 "UTC" eq_refl).
Defined.

(** [hold_bars_other] and [hold_bars] differ in everything the
    simulator does not read. *)
Lemma ledger_depends_on_view_witness :
  ledger_view hold_bars_other = ledger_view hold_bars /\
  hold_bars_other <> hold_bars /\
  @generate_orders sample_tzdb hold_bars_other 5 "UTC"
  = @generate_orders sample_tzdb hold_bars 5 "UTC".
Proof.
  split; [reflexivity|]. split; [discriminate|].
  exact (@ledger_depends_on_view sample_tzdb hold_bars_other hold_bars 5
           "UTC" eq_refl).
Defined.

(** [gap_bars]: the signal of row 1 is missing, so at row 2 the
    previous signal counts as 0 and the signal 1 opens a position,
    filled at bar 3's open. *)
Lemma missing_signal_steps_witness :
  (2 + 1 < length gap_bars)%nat /\
  exists st',
    @state_after sample_tzdb gap_bars 5 "UTC" 3 st' /\
    st' = mkState
            (Some (mkOpenEntry
                     (mkTimestamp 2024 1 4 9 15 0 (Some "UTC"%string)) 13 5))
            [].
Proof.
  split; [simpl; lia|].
  destruct (@missing_signal_steps sample_tzdb gap_bars 5 "UTC" 2
              ltac:(simpl; lia))
    as (st & st' & row & next_row & Hrow & Hnext & Hst & Hst' & _ & Hentry & _).
  simpl in Hrow, Hnext. injection Hrow as <-. injection Hnext as <-.
  unfold state_after in Hst. vm_compute in Hst. injection Hst as <-.
  destruct (Hentry eq_refl eq_refl eq_refl) as (dt & Hdt & Heq).
  vm_compute in Hdt. injection Hdt as <-.
  exists st'. split; [exact Hst'|exact Heq].
Defined.

(** The signals of [six_bars] under windows 2 and 3. *)
Lemma signals_are_binary_witness :
  exists out,
    compute_sma_signals six_bars 2 3 = Ok out /\
    map bar out = six_bars /\ binary_signals out = true /\
    signal_complete out = true.
Proof.
  eexists. split; [reflexivity|].
  exact (signals_are_binary six_bars 2 3 _ eq_refl).
Defined.

(** [six_bars] under windows 2 and 3: the only entry is filled on bar
    4, after the warm-up of 3 bars. *)
Lemma no_entry_before_warm_up_witness :
  exists out os,
    compute_sma_signals six_bars 2 3 = Ok out /\
    @order_list sample_tzdb out 5 "UTC" = Ok os /\
    forall o, o ∈ os ->
      exists i b,
        Z.max 2 3 <= Z.of_nat (i + 1) /\
        six_bars !! (i + 1)%nat = Some b /\
        @_make_dt sample_tzdb (date b) 9 15 "UTC" = Ok (entry_dt o) /\
        entry_price o = open b.
Proof.
  eexists.
  destruct (@no_entry_before_warm_up sample_tzdb six_bars 2 3 5 "UTC" _
              eq_refl) as (os & Hos & Hall).
  exists os. split; [reflexivity|]. split; [exact Hos|exact Hall].
Defined.

(** [six_bars] with both windows 3. *)
Lemma equal_windows_no_trades_witness :
  0 <= 3 /\
  exists out,
    compute_sma_signals six_bars 3 3 = Ok out /\
    (forall r, r ∈ out -> signal r = Some 0) /\
    @generate_orders sample_tzdb out 5 "UTC"
    = Ok (map (fun c => (c, [])) OUTPUT_COLS).
Proof.
  split; [discriminate|].
  exact (@equal_windows_no_trades sample_tzdb six_bars 3 5 "UTC"
           ltac:(discriminate)).
Defined.

(** [six_bars] and its reverse give the same run. *)
Lemma run_row_order_irrelevant_witness :
  NoDup (map (fun b => wall_seconds (date b)) six_bars) /\
  reverse six_bars ≡ₚ six_bars /\
  @run sample_tzdb merge_date_sort REQUIRED_COLS (reverse six_bars) 2 3 5 None
  = @run sample_tzdb merge_date_sort REQUIRED_COLS six_bars 2 3 5 None.
Proof.
  assert (Hnd : NoDup (map (fun b => wall_seconds (date b)) six_bars)).
  { refine (bool_decide_unpack _ _). vm_compute. exact I. }
  split; [exact Hnd|]. split; [apply reverse_Permutation|].
  exact (@run_row_order_irrelevant sample_tzdb merge_date_sort REQUIRED_COLS
           six_bars (reverse six_bars) 2 3 5 None Hnd
           (reverse_Permutation six_bars)).
Defined.

(** A run on the rows of [six_bars] in reverse order. *)
Lemma run_ledger_ascending_witness :
  exists os,
    @run sample_tzdb merge_date_sort REQUIRED_COLS (reverse six_bars) 2 3 5
         None
    = Ok (ledger_frame os) /\
    length os = 1%nat /\
    forall o h, o ∈ os -> bars_held o = Some h -> 1 <= h.
Proof.
  assert (Hv : forall b, b ∈ reverse six_bars -> valid_clock (date b) = true).
  { intros b Hb. apply elem_of_reverse in Hb.
    repeat (apply elem_of_cons in Hb as [->|Hb]; [reflexivity|]).
    by apply elem_of_nil in Hb. }
  assert (Hnd : NoDup (map (fun b => date_ordinal (date b))
                           (reverse six_bars))).
  { refine (bool_decide_unpack _ _). vm_compute. exact I. }
  destruct (@run_ledger_ascending sample_tzdb merge_date_sort REQUIRED_COLS
              (reverse six_bars) 2 3 5 None eq_refl ltac:(discriminate)
              ltac:(discriminate) Hv Hnd)
    as (df & out & os & Hdf & Hout & Hos & Hrun & _ & Hpos & Hlen).
  vm_compute in Hdf. injection Hdf as <-.
  vm_compute in Hout. injection Hout as <-.
  exists os. split; [exact Hrun|]. split; [|exact Hpos].
  rewrite Hlen. reflexivity.
Defined.

(** Two rows against a slow window of 3. *)
Lemma run_short_file_no_trades_witness :
  0 < 2 /\ Z.of_nat (length (take 2 six_bars)) < 3 /\
  @run sample_tzdb merge_date_sort REQUIRED_COLS (take 2 six_bars) 2 3 5 None
  = Ok (map (fun c => (c, [])) OUTPUT_COLS).
Proof.
  split; [reflexivity|]. split; [reflexivity|].
  exact (@run_short_file_no_trades sample_tzdb merge_date_sort REQUIRED_COLS
           (take 2 six_bars) 2 3 5 None eq_refl eq_refl eq_refl).
Defined.

(** [hold_bars] under a zone that takes every wall clock and under a
    name the zone database does not know. *)
Lemma ledger_independent_of_zone_witness :
  @uniform_zone sample_tzdb hold_bars "Asia/Kolkata" /\
  @uniform_zone sample_tzdb hold_bars "Mars/Olympus" /\
  @generate_orders sample_tzdb hold_bars 5 "Asia/Kolkata"
  = @generate_orders sample_tzdb hold_bars 5 "Mars/Olympus".
Proof.
  assert (H1 : @uniform_zone sample_tzdb hold_bars "Asia/Kolkata").
  { exists true. intros r _. reflexivity. }
  assert (H2 : @uniform_zone sample_tzdb hold_bars "Mars/Olympus").
  { exists false. intros r _. reflexivity. }
  split; [exact H1|]. split; [exact H2|].
  exact (ledger_independent_of_zone sample_tzdb sample_tzdb hold_bars 5
           "Asia/Kolkata" "Mars/Olympus" H1 H2).
Defined.

(** The signals of the first four bars of [six_bars] are the first
    four signals of [six_bars]. *)
Lemma signals_have_no_lookahead_witness :
  exists out,
    compute_sma_signals six_bars 2 3 = Ok out /\
    compute_sma_signals (take 4 six_bars) 2 3 = Ok (take 4 out) /\
    map signal (take 4 out) = [Some 0; Some 0; Some 0; Some 1].
Proof.
  eexists. split; [reflexivity|]. split.
  - exact (signals_have_no_lookahead six_bars 2 3 _ 4 eq_refl).
  - reflexivity.
Defined.

(** The first three bars of [hold_bars] leave a position open; with
    the other two bars appended the same record is finalized, at the
    same place. *)
Lemma ledger_grows_by_appending_witness :
  exists o o',
    @order_list sample_tzdb (take 3 hold_bars) 5 "UTC" = Ok [o] /\
    @order_list sample_tzdb (take 3 hold_bars ++ drop 3 hold_bars) 5 "UTC"
    = Ok [o'] /\
    exit_dt o = None /\ is_closed o' = true /\
    entry_dt o' = entry_dt o /\ entry_price o' = entry_price o.
Proof.
  destruct (@ledger_grows_by_appending sample_tzdb (take 3 hold_bars)
              (drop 3 hold_bars) 5 "UTC")
    as (os & os' & Hos & Hos' & _ & Hsame).
  pose proof Hos as H1. vm_compute in H1. injection H1 as <-.
  pose proof Hos' as H2. vm_compute in H2. injection H2 as <-.
  eexists _, _. split; [exact Hos|]. split; [exact Hos'|].
  split; [reflexivity|]. split; [reflexivity|].
  destruct (Hsame 0%nat _ eq_refl) as (o' & Ho' & Hdt & Hpr & _).
  injection Ho' as <-. split; [exact Hdt|exact Hpr].
Defined.

(** [six_bars] under windows 2 and 3: on the first five bars and on
    all six the ledger is the same open record. *)
Lemma pipeline_ledger_grows_witness :
  exists out_k out o,
    compute_sma_signals (take 5 six_bars) 2 3 = Ok out_k /\
    compute_sma_signals six_bars 2 3 = Ok out /\
    @order_list sample_tzdb out_k 5 "UTC" = Ok [o] /\
    @order_list sample_tzdb out 5 "UTC" = Ok [o].
Proof.
  destruct (@pipeline_ledger_grows sample_tzdb six_bars 2 3 5 "UTC" _ 5
              eq_refl)
    as (out_k & os & os' & Hk & Hos & Hos' & _ & Hsame).
  pose proof Hk as H0. vm_compute in H0. injection H0 as <-.
  pose proof Hos as H1. vm_compute in H1. injection H1 as <-.
  pose proof Hos' as H2. vm_compute in H2. injection H2 as <-.
  eexists _, _, _. split; [exact Hk|]. split; [reflexivity|].
  split; [exact Hos|exact Hos'].
Defined.

(** The ledger of [apia_bars] under Pacific/Apia: the entry column
    mixes a localized and a naive timestamp and is left as it is, the
    exit column is turned into strings. *)
Lemma timestamp_columns_rendering_witness :
  exists frame t1 t2,
    @generate_orders sample_tzdb apia_bars 5 "Pacific/Apia" = Ok frame /\
    df_get "entry_dt" frame = Some [CTs t1; CTs t2] /\
    ts_tz t1 = Some "Pacific/Apia"%string /\ ts_tz t2 = None /\
    df_get "exit_dt" frame = Some [CStr "2011-12-29 09:15:00"; CNaN].
Proof.
  destruct (@timestamp_columns_rendering sample_tzdb apia_bars 5 "Pacific/Apia")
    as (os & frame & Hos & Hframe & Hentry & Hexit).
  vm_compute in Hos. injection Hos as <-.
  eexists frame, _, _. split; [exact Hframe|].
  split; [exact Hentry|]. split; [reflexivity|]. split; [reflexivity|].
  exact Hexit.
Defined.
